(** * Control Assessment Engine: verification of [scripts/assess_controls.py]

    A shallow embedding of the evidence-to-control matching pipeline:
    text extraction ([extract_text_from_file]), keyword matching
    ([match_evidence_to_control]) and the driver ([main]).

    Modelling conventions.
    - A Python [str] is a [string]; characters are 8-bit, and [lower] and
      [split] follow [str.lower] and [str.split] on the ASCII range.
    - A Python [dict] with string keys is an association list in insertion
      order ([dict_set] overwrites in place, as a Python dict does), because
      [match_evidence_to_control] iterates over [evidence_texts.items()].
    - Exceptions are values of [exn]; code that can raise returns a [result].
    - [main] runs in a small writer-and-error monad [Run] whose trace records
      the file-system operations of the run (extraction calls, warnings, the
      output write).
    - The file system and the clock are the fields of a [world].

    The update checker [scripts/check_framework_updates.py] is embedded in
    the module [Updates], with the network as the environment. *)

From Stdlib Require Import String Ascii List Bool Arith Lia ZArith Permutation.
Import ListNotations.
Local Open Scope string_scope.
Local Open Scope list_scope.
Local Open Scope nat_scope.

Set Implicit Arguments.

(** ** Python string operations *)

Module Py.

(** [c.lower()] on one character: [A]..[Z] move to [a]..[z]. *)
Definition lower_char (c : ascii) : ascii :=
  let n := nat_of_ascii c in
  if (65 <=? n) && (n <=? 90) then ascii_of_nat (n + 32) else c.

(** [s.lower()] *)
Fixpoint lower (s : string) : string :=
  match s with
  | EmptyString => EmptyString
  | String c t => String (lower_char c) (lower t)
  end.

(** [c.isspace()]: tab, line feed, vertical tab, form feed, carriage
    return, the four separators 28..31, and the space. *)
Definition is_space (c : ascii) : bool :=
  let n := nat_of_ascii c in
  ((9 <=? n) && (n <=? 13)) || ((28 <=? n) && (n <=? 31)) || (n =? 32).

(** [s.split()] with no argument: maximal runs of non-space characters.
    [cur] is the token being read, in reverse. *)
Fixpoint rev_string (acc s : string) : string :=
  match s with
  | EmptyString => acc
  | String c t => rev_string (String c acc) t
  end.

Definition flush (cur : string) : list string :=
  match cur with
  | EmptyString => []
  | _ => [rev_string EmptyString cur]
  end.

Fixpoint split_aux (cur s : string) : list string :=
  match s with
  | EmptyString => flush cur
  | String c t =>
      if is_space c then flush cur ++ split_aux EmptyString t
      else split_aux (String c cur) t
  end.

Definition split (s : string) : list string := split_aux EmptyString s.

(** [text.startswith(kw)] *)
Fixpoint startswith (kw text : string) : bool :=
  match kw, text with
  | EmptyString, _ => true
  | String a k, String b t => Ascii.eqb a b && startswith k t
  | String _ _, EmptyString => false
  end.

(** [kw in text]: [kw] occurs as a substring of [text]. *)
Fixpoint contains (kw text : string) : bool :=
  startswith kw text ||
  match text with
  | EmptyString => false
  | String _ t => contains kw t
  end.

(** [s[:n]] *)
Fixpoint take (n : nat) (s : string) : string :=
  match n, s with
  | O, _ => EmptyString
  | _, EmptyString => EmptyString
  | S m, String c t => String c (take m t)
  end.

(** [sep.join(parts)] *)
Fixpoint join (sep : string) (parts : list string) : string :=
  match parts with
  | [] => EmptyString
  | [p] => p
  | p :: rest => (p ++ sep ++ join sep rest)%string
  end.

(** [bool(s)]: a string is truthy when it is not empty. *)
Definition truthy (s : string) : bool :=
  match s with EmptyString => false | _ => true end.

(** [x in xs] for a list of strings. *)
Definition mem (x : string) (xs : list string) : bool :=
  existsb (String.eqb x) xs.

(** [PurePath.suffix] of a file name: the part from the last dot, when that
    dot is neither the first nor the last character; otherwise empty. *)
Fixpoint from_last_dot (s : string) : option string :=
  match s with
  | EmptyString => None
  | String c t =>
      match from_last_dot t with
      | Some r => Some r
      | None => if Ascii.eqb c "."%char then Some s else None
      end
  end.

Definition suffix (name : string) : string :=
  match name with
  | EmptyString => EmptyString
  | String _ t =>
      match from_last_dot t with
      | Some r => if 1 <? String.length r then r else EmptyString
      | None => EmptyString
      end
  end.

(** [s.endswith("/")] *)
Fixpoint endswith_sep (s : string) : bool :=
  match s with
  | EmptyString => false
  | String c EmptyString => Ascii.eqb c "/"%char
  | String _ t => endswith_sep t
  end.

(** [s.lstrip(".")] *)
Fixpoint lstrip_dots (s : string) : string :=
  match s with
  | String c t => if Ascii.eqb c "."%char then lstrip_dots t else s
  | EmptyString => EmptyString
  end.

End Py.

(** ** Dictionaries in insertion order *)

Definition dict (V : Type) := list (string * V).

(** [d[k] = v]: an existing key keeps its position, a new key goes last. *)
Fixpoint dict_set {V} (k : string) (v : V) (d : dict V) : dict V :=
  match d with
  | [] => [(k, v)]
  | (k', v') :: rest =>
      if String.eqb k k' then (k, v) :: rest else (k', v') :: dict_set k v rest
  end.

Definition dict_keys {V} (d : dict V) : list string := map fst d.

(** ** Exceptions and results *)

(** [FileNotFoundError] and [OSError] carry the file name of the exception;
    [OSError] stands for the class and its subclasses.  The message, document
    and position that a [JSONDecodeError] carries are left out: it names no
    path. *)
Inductive exn : Type :=
| FileNotFoundError (path : string)
| JSONDecodeError
| KeyError (key : string)
| OSError (path : string).

Inductive result (A : Type) : Type :=
| Ok (a : A)
| Err (e : exn).

Arguments Ok {A} a.
Arguments Err {A} e.

Definition is_err {A} (r : result A) : bool :=
  match r with Ok _ => false | Err _ => true end.

(** [d[key]] on an optional field: a missing key raises [KeyError]. *)
Definition subscript {A} (key : string) (field : option A) : result A :=
  match field with
  | Some a => Ok a
  | None => Err (KeyError key)
  end.

(** [d.get(key, default)] *)
Definition get_default {A} (field : option A) (default : A) : A :=
  match field with
  | Some a => a
  | None => default
  end.

Definition rbind {A B} (r : result A) (k : A -> result B) : result B :=
  match r with
  | Ok a => k a
  | Err e => Err e
  end.

Declare Scope result_scope.
Delimit Scope result_scope with result.
Notation "x <- c ;; k" := (rbind c (fun x => k))
  (at level 61, c at next level, right associativity) : result_scope.

(** ** Data model *)

(** A control object of the framework document.  [id], [name] and
    [description] are read with a subscript, [common_evidence] and
    [points_of_focus] with [.get] and a default.  A field that is present has
    the type the framework file format gives it (a string, an array of
    strings, an array); a document in which a field is present with [null]
    or with another type, on which the source raises [TypeError] or
    [AttributeError], is outside this model. *)
Record Control : Type := {
  c_id : option string;
  c_name : option string;
  c_description : option string;
  c_common_evidence : option (list string);
  c_points_of_focus : option (list string)
}.

Inductive Status : Type :=
| potential_compliant
| potential_partial
| potential_gap.

Definition Status_eqb (a b : Status) : bool :=
  match a, b with
  | potential_compliant, potential_compliant => true
  | potential_partial, potential_partial => true
  | potential_gap, potential_gap => true
  | _, _ => false
  end.

Record Finding : Type := {
  control_id : string;
  control_name : string;
  control_description : string;
  common_evidence_types : list string;
  evidence_found : list string;
  preliminary_status : Status;
  points_of_focus_count : nat;
  requires_ai_analysis : bool
}.

(** ** The relevance matcher *)

(** The loop over [common_evidence]:
    [control_keywords.extend(ev.lower().split())]. *)
Definition keywords_of (common_evidence : list string) : list string :=
  flat_map (fun ev => Py.split (Py.lower ev)) common_evidence.

Definition control_keywords (control : Control) : list string :=
  keywords_of (get_default (c_common_evidence control) []).

(** [sum(1 for kw in control_keywords if kw in text_lower)] *)
Definition count_matches (keywords : list string) (text_lower : string) : nat :=
  List.length (filter (fun kw => Py.contains kw text_lower) keywords).

(** The test [matches > 2] for one item of [evidence_texts]. *)
Definition is_matched (keywords : list string) (text : string) : bool :=
  2 <? count_matches keywords (Py.lower text).

(** The loop over [evidence_texts.items()]. *)
Definition matched_files (keywords : list string) (evidence_texts : dict string)
  : list string :=
  map fst (filter (fun item => is_matched keywords (snd item)) evidence_texts).

Definition status_of (matched_evidence : list string) : Status :=
  if 2 <=? List.length matched_evidence then potential_compliant
  else if List.length matched_evidence =? 1 then potential_partial
  else potential_gap.

Definition match_evidence_to_control (control : Control)
    (evidence_texts : dict string) : result Finding :=
  (let common_evidence := get_default (c_common_evidence control) [] in
   let matched_evidence := matched_files (control_keywords control) evidence_texts in
   let status := status_of matched_evidence in
   id <- subscript "id" (c_id control) ;;
   name <- subscript "name" (c_name control) ;;
   description <- subscript "description" (c_description control) ;;
   Ok {| control_id := id;
         control_name := name;
         control_description := Py.take 500 description;
         common_evidence_types := common_evidence;
         evidence_found := matched_evidence;
         preliminary_status := status;
         points_of_focus_count :=
           List.length (get_default (c_points_of_focus control) []);
         requires_ai_analysis := true |})%result.

(** A control that carries the three fields read with a subscript. *)
Definition well_formed (control : Control) : Prop :=
  c_id control <> None /\ c_name control <> None /\ c_description control <> None.

(** ** Evidence files and text extraction *)

(** A spreadsheet cell value, seen through the two operations the extractor
    applies to it: its truth value ([if c]) and [str(c)]. *)
Record Cell : Type := {
  cell_truthy : bool;
  cell_str : string
}.

(** What each reader makes of one file.  [None] stands for a reader that
    raises (a missing library, an unreadable or malformed file).
    - [fc_read_text]: [file_path.read_text(errors="ignore")];
    - [fc_pdf]: the pages of [PyPDF2.PdfReader], each with the value of
      [page.extract_text()], which may be [None];
    - [fc_docx]: the texts of [Document(file_path).paragraphs];
    - [fc_xlsx]: the worksheets of [openpyxl.load_workbook], each a list of
      rows of cell values. *)
Record FileContent : Type := {
  fc_read_text : option string;
  fc_pdf : option (list (option string));
  fc_docx : option (list string);
  fc_xlsx : option (list (list (list Cell)))
}.

(** An entry of the evidence directory, as [iterdir], [is_file] and [stat]
    show it. *)
Record DirEntry : Type := {
  e_name : string;
  e_is_file : bool;
  e_size : Z
}.

(** An element of the catalog built by [load_evidence_files]. *)
Record EvidenceFile : Type := {
  ef_name : string;
  ef_path : string;
  ef_type : string;
  ef_size : Z
}.

Record Summary : Type := {
  total_controls : nat;
  count_potential_compliant : nat;
  count_potential_partial : nat;
  count_potential_gap : nat
}.

Record FrameworkInfo : Type := {
  framework_id : string;
  framework_name : string;
  framework_version : string
}.

Record AssessmentResult : Type := {
  assessment_id : string;
  client_id : string;
  framework : FrameworkInfo;
  assessment_type : string;
  timestamp : string;
  evidence_files : list EvidenceFile;
  preliminary_summary : Summary;
  findings : list Finding;
  note : string
}.

(** The framework document after [json.load]: an object whose fields, when
    present, have the types of the framework file format. *)
Record FrameworkIdentity : Type := {
  fw_id : option string;
  fw_name : option string;
  fw_version : option string
}.

Record FrameworkDoc : Type := {
  doc_framework : option FrameworkIdentity;
  doc_controls : option (list Control)
}.

Inductive FrameworkFile : Type :=
| FwMissing                      (* no such file: [open] raises *)
| FwMalformed                    (* not JSON: [json.load] raises *)
| FwDoc (doc : FrameworkDoc).

(** The environment of one run. *)
Record World : Type := {
  w_framework_file : FrameworkFile;
  w_listing : option (list DirEntry);   (* [None]: no such directory *)
  w_content : string -> FileContent;    (* by file name in the directory *)
  w_stamp : string;                     (* [datetime.now().strftime(...)] *)
  w_utc_iso : string;                   (* [datetime.now(timezone.utc).isoformat()] *)
  w_output_ok : bool                    (* [open(output_path, "w")] succeeds *)
}.

(** The arguments of a run.  The three paths are the strings of the [Path]
    objects that [main] makes of them (lines 135-137), in the normal form of
    [pathlib]: no doubled or trailing separator, no [.] component. *)
Record Args : Type := {
  arg_client_id : string;
  arg_framework : string;
  arg_evidence_dir : string;
  arg_assessment_type : string;
  arg_output : string
}.

(** The observable steps of a run. *)
Inductive event : Type :=
| EvLoadFramework (path : string)
| EvIterDir (dir : string)
| EvExtract (name : string)
| EvWarning (name : string)
| EvWrite (path : string) (artifact : AssessmentResult).

Definition is_write (e : event) : bool :=
  match e with EvWrite _ _ => true | _ => false end.

Definition is_extract (e : event) : bool :=
  match e with EvExtract _ => true | _ => false end.

(** ** The monad of a run: a trace and a result *)

Definition Run (A : Type) : Type := (list event * result A)%type.

Definition ret {A} (a : A) : Run A := ([], Ok a).

Definition bind {A B} (m : Run A) (k : A -> Run B) : Run B :=
  match m with
  | (t, Ok a) => let (t', r) := k a in (t ++ t', r)
  | (t, Err e) => (t, Err e)
  end.

Definition emit (e : event) : Run unit := ([e], Ok tt).

Definition raise {A} (e : exn) : Run A := ([], Err e).

Definition lift {A} (r : result A) : Run A := ([], r).

Definition trace {A} (m : Run A) : list event := fst m.

Definition outcome {A} (m : Run A) : result A := snd m.

Declare Scope run_scope.
Delimit Scope run_scope with run.
Notation "x <- c ;; k" := (bind c (fun x => k))
  (at level 61, c at next level, right associativity) : run_scope.
Notation "c ;; k" := (bind c (fun _ => k))
  (at level 61, right associativity) : run_scope.

(** The bound of every slice [[:5000]] of the extractor. *)
Definition MAX_CHARS : nat := 5000.

(** [" ".join([str(c) for c in row if c]) + "\n"] *)
Definition row_text (row : list Cell) : string :=
  (Py.join " " (map cell_str (filter cell_truthy row)) ++ String "010"%char EmptyString)%string.

(** The two nested loops over [wb.worksheets[:2]] and
    [sheet.iter_rows(max_row=50, values_only=True)]. *)
Definition workbook_text (sheets : list (list (list Cell))) : string :=
  String.concat "" (map (fun sheet => String.concat "" (map row_text (firstn 50 sheet)))
                        (firstn 2 sheets)).

(** The loop over [reader.pages[:5]]: [text += page.extract_text() or ""]. *)
Definition pages_text (pages : list (option string)) : string :=
  String.concat "" (map (fun p => match p with
                                  | Some s => if Py.truthy s then s else ""
                                  | None => ""
                                  end) (firstn 5 pages)).

Definition placeholder (kind name : string) : string :=
  ("[" ++ kind ++ ": " ++ name ++ "]")%string.

(** [file_path] is given by its file name: the suffix is a function of the
    name, and [read] gives the content of the file of that name. *)
Definition extract_text_from_file (read : string -> FileContent) (name : string)
  : Run (option string) :=
  (let suffix := Py.lower (Py.suffix name) in
   emit (EvExtract name) ;;
   if Py.mem suffix [".txt"; ".md"; ".csv"; ".json"] then
     match fc_read_text (read name) with
     | Some s => ret (Some (Py.take MAX_CHARS s))
     | None => emit (EvWarning name) ;; ret None
     end
   else if String.eqb suffix ".pdf" then
     match fc_pdf (read name) with
     | Some pages => ret (Some (Py.take MAX_CHARS (pages_text pages)))
     | None => ret (Some (placeholder "PDF" name))
     end
   else if String.eqb suffix ".docx" then
     match fc_docx (read name) with
     | Some paragraphs =>
         ret (Some (Py.take MAX_CHARS (Py.join (String "010"%char EmptyString) paragraphs)))
     | None => ret (Some (placeholder "DOCX" name))
     end
   else if Py.mem suffix [".xlsx"; ".xls"] then
     match fc_xlsx (read name) with
     | Some sheets => ret (Some (Py.take MAX_CHARS (workbook_text sheets)))
     | None => ret (Some (placeholder "XLSX" name))
     end
   else ret None)%run.

(** ** The driver *)

Definition load_framework (w : World) (framework_path : string) : Run FrameworkDoc :=
  (emit (EvLoadFramework framework_path) ;;
   match w_framework_file w with
   | FwMissing => raise (FileNotFoundError framework_path)
   | FwMalformed => raise JSONDecodeError
   | FwDoc doc => ret doc
   end)%run.

(** [str(evidence_dir / name)] for a directory in normal form: the current
    directory [.] disappears, and a root keeps its own separator. *)
Definition path_join (evidence_dir name : string) : string :=
  if String.eqb evidence_dir "." then name
  else if Py.endswith_sep evidence_dir then (evidence_dir ++ name)%string
  else (evidence_dir ++ "/" ++ name)%string.

Definition catalog_entry (evidence_dir : string) (e : DirEntry) : EvidenceFile :=
  {| ef_name := e_name e;
     ef_path := path_join evidence_dir (e_name e);
     ef_type := Py.lstrip_dots (Py.lower (Py.suffix (e_name e)));
     ef_size := e_size e |}.

Definition load_evidence_files (w : World) (evidence_dir : string)
  : Run (list EvidenceFile) :=
  (emit (EvIterDir evidence_dir) ;;
   match w_listing w with
   | None => raise (FileNotFoundError evidence_dir)
   | Some entries => ret (map (catalog_entry evidence_dir) (filter e_is_file entries))
   end)%run.

(** The catalog of a run whose directory listing is [entries]. *)
Definition catalog (args : Args) (entries : list DirEntry) : list EvidenceFile :=
  map (catalog_entry (arg_evidence_dir args)) (filter e_is_file entries).

(** The loop [for ef in evidence_files] that fills [evidence_texts]. *)
Fixpoint extract_all (read : string -> FileContent) (files : list EvidenceFile)
    (evidence_texts : dict string) : Run (dict string) :=
  match files with
  | [] => ret evidence_texts
  | ef :: rest =>
      (text <- extract_text_from_file read (ef_name ef) ;;
       extract_all read rest
         match text with
         | Some s => if Py.truthy s then dict_set (ef_name ef) s evidence_texts
                     else evidence_texts
         | None => evidence_texts
         end)%run
  end.

(** The loop [for control in controls] that fills [findings]. *)
Fixpoint assess_all (controls : list Control) (evidence_texts : dict string)
  : result (list Finding) :=
  match controls with
  | [] => Ok []
  | control :: rest =>
      (finding <- match_evidence_to_control control evidence_texts ;;
       others <- assess_all rest evidence_texts ;;
       Ok (finding :: others))%result
  end.

(** [sum(1 for f in findings if f["preliminary_status"] == status)] *)
Definition count_status (status : Status) (fs : list Finding) : nat :=
  List.length (filter (fun f => Status_eqb (preliminary_status f) status) fs).

Definition build_result (args : Args) (w : World) (doc : FrameworkDoc)
    (controls : list Control) (files : list EvidenceFile) (fs : list Finding)
  : result AssessmentResult :=
  (fw <- subscript "framework" (doc_framework doc) ;;
   id <- subscript "id" (fw_id fw) ;;
   name <- subscript "name" (fw_name fw) ;;
   version <- subscript "version" (fw_version fw) ;;
   Ok {| assessment_id := (arg_client_id args ++ "-" ++ id ++ "-" ++ w_stamp w)%string;
         client_id := arg_client_id args;
         framework := {| framework_id := id;
                         framework_name := name;
                         framework_version := version |};
         assessment_type := arg_assessment_type args;
         timestamp := w_utc_iso w;
         evidence_files := files;
         preliminary_summary :=
           {| total_controls := List.length controls;
              count_potential_compliant := count_status potential_compliant fs;
              count_potential_partial := count_status potential_partial fs;
              count_potential_gap := count_status potential_gap fs |};
         findings := fs;
         note := "Preliminary assessment - requires AI consensus analysis for final determination" |})%result.

(** [with open(output_path, "w")] and [json.dump]: the artifact is written,
    or the open raises [OSError] (or one of its subclasses). *)
Definition write_output (w : World) (output_path : string) (r : AssessmentResult)
  : Run unit :=
  if w_output_ok w then emit (EvWrite output_path r) else raise (OSError output_path).

(** [main].  Progress messages on standard output are left out of the trace.
    The value of a run that gets through is the [result] dictionary that was
    written. *)
Definition main (args : Args) (w : World) : Run AssessmentResult :=
  (doc <- load_framework w (arg_framework args) ;;
   let controls := get_default (doc_controls doc) [] in
   files <- load_evidence_files w (arg_evidence_dir args) ;;
   evidence_texts <- extract_all (w_content w) files [] ;;
   fs <- lift (assess_all controls evidence_texts) ;;
   r <- lift (build_result args w doc controls files fs) ;;
   write_output w (arg_output args) r ;;
   ret r)%run.

(** ** The matching rule as the specification words it

    Section 4.4 of the specification speaks of a "keyword-occurrence count"
    with "distinct or repeated keyword hits".  [spec_occurrence_count] is
    that reading: every position of the text at which a keyword starts is a
    hit.  It is compared below with [count_matches], the count of the
    source. *)

Fixpoint occurrences (kw text : string) : nat :=
  (if Py.startswith kw text then 1 else 0) +
  match text with
  | EmptyString => 0
  | String _ t => occurrences kw t
  end.

Definition spec_occurrence_count (keywords : list string) (text_lower : string) : nat :=
  list_sum (map (fun kw => occurrences kw text_lower) keywords).

(** ** Properties of strings used in the statements *)

Fixpoint string_forallb (p : ascii -> bool) (s : string) : bool :=
  match s with
  | EmptyString => true
  | String c t => p c && string_forallb p t
  end.

Definition is_upper (c : ascii) : bool :=
  let n := nat_of_ascii c in (65 <=? n) && (n <=? 90).

(** A word token: not empty, without white space, without capital letters. *)
Definition is_token (kw : string) : bool :=
  Py.truthy kw &&
  string_forallb (fun c => negb (Py.is_space c) && negb (is_upper c)) kw.

(** The longest name of a directory entry ([NAME_MAX] of the common file
    systems). *)
Definition NAME_MAX : nat := 255.

(** ** Sample data *)

Definition sample_control (labels : list string) : Control :=
  {| c_id := Some "CC6.1";
     c_name := Some "Logical access";
     c_description := Some "Access to systems is restricted.";
     c_common_evidence := Some labels;
     c_points_of_focus := None |}.

Definition access_control : Control := sample_control ["access control policy"].

Definition text_file (s : string) : FileContent :=
  {| fc_read_text := Some s; fc_pdf := None; fc_docx := None; fc_xlsx := None |}.

Definition sample_identity : FrameworkIdentity :=
  {| fw_id := Some "soc2"; fw_name := Some "SOC 2"; fw_version := Some "2017" |}.

Definition sample_args : Args :=
  {| arg_client_id := "acme";
     arg_framework := "frameworks/soc2.json";
     arg_evidence_dir := "evidence";
     arg_assessment_type := "full";
     arg_output := "out.json" |}.

Definition sample_entry (name : string) : DirEntry :=
  {| e_name := name; e_is_file := true; e_size := 64%Z |}.

Definition sample_world (fw : FrameworkFile) (listing : option (list DirEntry))
    (content : string -> FileContent) : World :=
  {| w_framework_file := fw;
     w_listing := listing;
     w_content := content;
     w_stamp := "20260101120000";
     w_utc_iso := "2026-01-01T12:00:00+00:00";
     w_output_ok := true |}.

(** The world [w] with another framework document. *)
Definition with_doc (w : World) (doc : FrameworkDoc) : World :=
  {| w_framework_file := FwDoc doc;
     w_listing := w_listing w;
     w_content := w_content w;
     w_stamp := w_stamp w;
     w_utc_iso := w_utc_iso w;
     w_output_ok := w_output_ok w |}.

(** A framework document without its ["framework"] object. *)
Definition doc_without_identity : FrameworkDoc :=
  {| doc_framework := None; doc_controls := Some [access_control] |}.

(** A framework document without its ["controls"] array. *)
Definition doc_without_controls : FrameworkDoc :=
  {| doc_framework := Some sample_identity; doc_controls := None |}.

Definition doc_complete : FrameworkDoc :=
  {| doc_framework := Some sample_identity; doc_controls := Some [access_control] |}.

Definition policy_content (name : string) : FileContent :=
  text_file "Access control policy review document, access, control".

(** A world whose evidence directory lists the text files [names], in that
    order, each with the same policy text. *)
Definition policy_world (doc : FrameworkDoc) (names : list string) : World :=
  sample_world (FwDoc doc) (Some (map sample_entry names)) policy_content.

(** A world whose evidence files are all empty text files. *)
Definition empty_files_world (names : list string) : World :=
  sample_world (FwDoc doc_complete) (Some (map sample_entry names))
    (fun _ => text_file "").

(** A reader for which every text file holds [s] and every other reader
    raises. *)
Definition text_only_reader (s : string) : string -> FileContent :=
  fun _ => text_file s.

(** The framework identity is not complete: the ["framework"] object or one
    of its three fields is absent. *)
Definition identity_missing (doc : FrameworkDoc) : Prop :=
  match doc_framework doc with
  | None => True
  | Some fw => fw_id fw = None \/ fw_name fw = None \/ fw_version fw = None
  end.

(** ** Further definitions for the properties of the pipeline *)

(** [d[k]] as a lookup: the value of the first item with key [k]. *)
Fixpoint dict_get {V} (k : string) (d : dict V) : option V :=
  match d with
  | [] => None
  | (k', v) :: rest => if String.eqb k k' then Some v else dict_get k rest
  end.

(** The suffixes that [extract_text_from_file] reads as plain text, and the
    suffixes it dispatches on at all. *)
Definition text_like (suffix : string) : bool :=
  Py.mem suffix [".txt"; ".md"; ".csv"; ".json"].

Definition recognized (suffix : string) : bool :=
  Py.mem suffix [".txt"; ".md"; ".csv"; ".json"; ".pdf"; ".docx"; ".xlsx"; ".xls"].

(** The items that one catalogued file adds to [evidence_texts]: its name
    with its text when the text is there and not empty. *)
Definition contribution (read : string -> FileContent) (ef : EvidenceFile)
  : dict string :=
  match outcome (extract_text_from_file read (ef_name ef)) with
  | Ok (Some s) => if Py.truthy s then [(ef_name ef, s)] else []
  | _ => []
  end.

(** The file called [name] has a non-empty extracted text that scores more
    than two against [keywords]. *)
Definition file_matches (read : string -> FileContent) (keywords : list string)
    (name : string) : bool :=
  match outcome (extract_text_from_file read name) with
  | Ok (Some s) => Py.truthy s && is_matched keywords s
  | _ => false
  end.

(** The three statuses in the order of evidence breadth. *)
Definition status_rank (s : Status) : nat :=
  match s with
  | potential_gap => 0
  | potential_partial => 1
  | potential_compliant => 2
  end.

(** The world [w] at another time. *)
Definition with_clock (w : World) (stamp utc_iso : string) : World :=
  {| w_framework_file := w_framework_file w;
     w_listing := w_listing w;
     w_content := w_content w;
     w_stamp := stamp;
     w_utc_iso := utc_iso;
     w_output_ok := w_output_ok w |}.


(** The world [w] with its evidence directory enumerated as [entries]. *)
Definition with_listing (w : World) (entries : list DirEntry) : World :=
  {| w_framework_file := w_framework_file w;
     w_listing := Some entries;
     w_content := w_content w;
     w_stamp := w_stamp w;
     w_utc_iso := w_utc_iso w;
     w_output_ok := w_output_ok w |}.

(** [a] is an initial segment of [s]. *)
Definition is_prefix (a s : string) : bool := Py.startswith a s.

(** A reader for which the PDF library raises on every file. *)
Definition broken_pdf_reader : string -> FileContent :=
  fun _ => {| fc_read_text := Some "bytes"; fc_pdf := None;
              fc_docx := None; fc_xlsx := None |}.

(** A directory with a text file, an image and a sub-directory. *)
Definition mixed_entries : list DirEntry :=
  [ sample_entry "policy.txt";
    sample_entry "diagram.PNG";
    {| e_name := "archive"; e_is_file := false; e_size := 4096%Z |} ].

Definition mixed_world : World :=
  sample_world (FwDoc doc_complete) (Some mixed_entries) policy_content.

(** * Framework Update Checker: [scripts/check_framework_updates.py]

    The request, the status check and the parse of the page are one step of
    the environment: it gives the text of the page ([soup.get_text()]) or the
    message of the exception raised on the way.  The trace of a run records
    the requests and the write of the results. *)

Module Updates.

Record SourceConfig : Type := {
  cfg_name : string;
  cfg_check_url : string;
  cfg_keywords : list string;
  cfg_current_version : string
}.

Definition FRAMEWORK_SOURCES : dict SourceConfig :=
  [ ("soc2",
     {| cfg_name := "SOC 2 Trust Service Criteria";
        cfg_check_url := "https://www.aicpa.org/resources/landing/system-and-organization-controls-soc-suite-of-services";
        cfg_keywords := ["trust services criteria"; "TSC"];
        cfg_current_version := "2017" |});
    ("nist-csf",
     {| cfg_name := "NIST Cybersecurity Framework";
        cfg_check_url := "https://www.nist.gov/cyberframework";
        cfg_keywords := ["CSF 2.0"; "cybersecurity framework"];
        cfg_current_version := "2.0" |});
    ("pci-dss",
     {| cfg_name := "PCI Data Security Standard";
        cfg_check_url := "https://www.pcisecuritystandards.org/document_library/";
        cfg_keywords := ["PCI DSS"; "4.0"];
        cfg_current_version := "4.0" |});
    ("hipaa",
     {| cfg_name := "HIPAA Security Rule";
        cfg_check_url := "https://www.hhs.gov/hipaa/for-professionals/security/index.html";
        cfg_keywords := ["security rule"];
        cfg_current_version := "current" |}) ].

Inductive Response : Type :=
| PageText (text : string)
| Failure (message : string).

(** The environment of one run of the checker. *)
Record Net : Type := {
  n_get : string -> Response;       (* by URL *)
  n_now : string -> string;         (* the time of the check of a framework id *)
  n_start : string;                 (* the time at the start of [main] *)
  n_output_ok : bool                (* [open(args.output, "w")] succeeds *)
}.

Record Check : Type := {
  framework_id : string;
  name : string;
  checked_at : string;
  update_detected : bool;
  details : option string;
  error : option string
}.

Definition update_phrases : list string :=
  ["new version"; "updated"; "revision"; "latest"].

Definition details_for (phrase : string) : string :=
  ("Found '" ++ phrase ++ "' - manual review recommended")%string.

Definition check_for_updates (net : Net) (fid : string) (config : SourceConfig) : Check :=
  match n_get net (cfg_check_url config) with
  | Failure message =>
      {| framework_id := fid; name := cfg_name config; checked_at := n_now net fid;
         update_detected := false; details := None; error := Some message |}
  | PageText text =>
      let page_text := Py.lower text in
      match find (fun phrase => Py.contains phrase page_text) update_phrases with
      | Some phrase =>
          {| framework_id := fid; name := cfg_name config; checked_at := n_now net fid;
             update_detected := true; details := Some (details_for phrase);
             error := None |}
      | None =>
          {| framework_id := fid; name := cfg_name config; checked_at := n_now net fid;
             update_detected := false; details := None; error := None |}
      end
  end.

Record Results : Type := {
  results_checked_at : string;
  updates_found : bool;
  frameworks : list string;
  checks : list Check
}.

Inductive event : Type :=
| EvGet (url : string)
| EvWrite (path : string) (results : Results).

(** The loop [for fid, config in frameworks.items()]. *)
Fixpoint run_checks (net : Net) (selected : dict SourceConfig) (results : Results)
  : list event * Results :=
  match selected with
  | [] => ([], results)
  | (fid, config) :: rest =>
      let check := check_for_updates net fid config in
      let results1 :=
        {| results_checked_at := results_checked_at results;
           updates_found := updates_found results;
           frameworks := frameworks results;
           checks := checks results ++ [check] |} in
      let results2 :=
        if update_detected check
        then {| results_checked_at := results_checked_at results1;
                updates_found := true;
                frameworks := frameworks results1 ++ [fid];
                checks := checks results1 |}
        else results1 in
      let (t, final) := run_checks net rest results2 in
      (EvGet (cfg_check_url config) :: t, final)
  end.

(** The selection of line 83: the one framework asked for, or the table. *)
Definition select (framework : string) : result (dict SourceConfig) :=
  if Py.truthy framework then
    match dict_get framework FRAMEWORK_SOURCES with
    | Some config => Ok [(framework, config)]
    | None => Err (KeyError framework)
    end
  else Ok FRAMEWORK_SOURCES.

Definition main (framework output : string) (net : Net) : list event * result Results :=
  match select framework with
  | Err e => ([], Err e)
  | Ok selected =>
      let (t, results) :=
        run_checks net selected
          {| results_checked_at := n_start net; updates_found := false;
             frameworks := []; checks := [] |} in
      if n_output_ok net then (t ++ [EvWrite output results], Ok results)
      else (t, Err (OSError output))
  end.

(** A network on which the NIST page announces a revision, the PCI request
    fails, and the other pages say nothing. *)
Definition sample_net : Net :=
  {| n_get := fun url =>
       if String.eqb url "https://www.nist.gov/cyberframework"
       then PageText "The LATEST Revision of the framework, Updated in 2024"
       else if String.eqb url "https://www.pcisecuritystandards.org/document_library/"
       then Failure "503 Server Error"
       else PageText "Welcome";
     n_now := fun _ => "2026-01-01T12:00:01+00:00";
     n_start := "2026-01-01T12:00:00+00:00";
     n_output_ok := true |}.

End Updates.

(** * Properties *)

(** ** Strings *)

Lemma take_length (n : nat) (s : string) : String.length (Py.take n s) <= n.
Proof.
  revert s; induction n as [|n IH]; intros [|c t]; simpl; try lia.
  specialize (IH t); lia.
Qed.

Lemma append_length (a b : string) :
  String.length (a ++ b) = String.length a + String.length b.
Proof. induction a as [|c a IH]; simpl; [reflexivity | now rewrite IH]. Qed.

Lemma placeholder_length (kind name : string) :
  String.length (placeholder kind name)
  = String.length kind + String.length name + 4.
Proof.
  unfold placeholder. rewrite !append_length. simpl. lia.
Qed.

Lemma occurrences_of_contains (kw text : string) :
  Py.contains kw text = true -> 1 <= occurrences kw text.
Proof.
  induction text as [|c t IH]; simpl.
  - destruct (Py.startswith kw ""); simpl; [lia | discriminate].
  - destruct (Py.startswith kw (String c t)); simpl; [lia |].
    intros H. apply IH in H. lia.
Qed.

(** ** The relevance matcher *)

Lemma count_matches_app (ks1 ks2 : list string) (text : string) :
  count_matches (ks1 ++ ks2) text = count_matches ks1 text + count_matches ks2 text.
Proof. unfold count_matches. now rewrite filter_app, length_app. Qed.

Lemma count_matches_le_length (ks : list string) (text : string) :
  count_matches ks text <= List.length ks.
Proof. unfold count_matches. apply filter_length_le. Qed.

Lemma count_matches_le_spec (ks : list string) (text : string) :
  count_matches ks text <= spec_occurrence_count ks text.
Proof.
  unfold count_matches, spec_occurrence_count.
  induction ks as [|kw ks IH]; simpl; [lia |].
  destruct (Py.contains kw text) eqn:E; simpl; [|lia].
  apply occurrences_of_contains in E. lia.
Qed.

Lemma keywords_of_app (l1 l2 : list string) :
  keywords_of (l1 ++ l2) = keywords_of l1 ++ keywords_of l2.
Proof. unfold keywords_of. apply flat_map_app. Qed.

Lemma matched_files_spec (ks : list string) (ev : dict string) (name : string) :
  In name (matched_files ks ev) <->
  exists text, In (name, text) ev /\ 2 < count_matches ks (Py.lower text).
Proof.
  unfold matched_files, is_matched. rewrite in_map_iff. split.
  - intros [[n text] [Hn Hin]]. simpl in Hn. subst n.
    apply filter_In in Hin as [Hin Hm]. simpl in Hm.
    exists text. split; [exact Hin | now apply Nat.ltb_lt].
  - intros [text [Hin Hm]]. exists (name, text). split; [reflexivity |].
    apply filter_In. split; [exact Hin | now apply Nat.ltb_lt].
Qed.

Lemma matched_files_keys (ks : list string) (ev : dict string) (name : string) :
  In name (matched_files ks ev) -> In name (dict_keys ev).
Proof.
  intros H. apply matched_files_spec in H as [text [Hin _]].
  unfold dict_keys. apply in_map_iff. now exists (name, text).
Qed.

Lemma matched_files_no_keywords (ev : dict string) : matched_files [] ev = [].
Proof.
  unfold matched_files, is_matched, count_matches. simpl.
  induction ev as [|item rest IH]; [reflexivity | simpl; exact IH].
Qed.

(** A well-formed control always yields a finding, and the finding is the
    record the source builds. *)
Lemma match_well_formed (control : Control) (ev : dict string) :
  well_formed control ->
  exists f, match_evidence_to_control control ev = Ok f /\
            evidence_found f = matched_files (control_keywords control) ev /\
            preliminary_status f = status_of (evidence_found f) /\
            Some (control_id f) = c_id control /\
            requires_ai_analysis f = true.
Proof.
  intros (Hid & Hname & Hdesc). unfold match_evidence_to_control.
  destruct (c_id control) as [id|]; [|congruence].
  destruct (c_name control) as [nm|]; [|congruence].
  destruct (c_description control) as [d|]; [|congruence].
  simpl. eexists. split; [reflexivity |]. simpl. auto.
Qed.

(** Whatever finding the matcher returns is the record the source builds. *)
Lemma match_ok_inv (control : Control) (ev : dict string) (f : Finding) :
  match_evidence_to_control control ev = Ok f ->
  well_formed control /\
  evidence_found f = matched_files (control_keywords control) ev /\
  preliminary_status f = status_of (evidence_found f) /\
  Some (control_id f) = c_id control.
Proof.
  unfold match_evidence_to_control, well_formed.
  destruct (c_id control) as [id|]; simpl; [|discriminate].
  destruct (c_name control) as [nm|]; simpl; [|discriminate].
  destruct (c_description control) as [d|]; simpl; [|discriminate].
  intros H. injection H as <-. simpl. repeat split; congruence.
Qed.

Lemma sample_control_well_formed (labels : list string) :
  well_formed (sample_control labels).
Proof. unfold well_formed, sample_control; simpl. repeat split; discriminate. Qed.

(** C1. For every (well-formed) control and every extracted-text mapping the
    matcher returns a finding; its [evidence_found] names the files of the
    mapping whose lower-cased text holds more than two of the control's
    keywords, and its preliminary status is determined by the number of
    these matched files alone: none gives [potential_gap], exactly one gives
    [potential_partial], two or more give [potential_compliant]. *)
Theorem preliminary_status_by_matched_count
    (control : Control) (evidence_texts : dict string)
    (WF : well_formed control) :
  let matched :=
    filter (fun item => 2 <? count_matches (control_keywords control)
                                           (Py.lower (snd item)))
           evidence_texts in
  exists f,
    match_evidence_to_control control evidence_texts = Ok f /\
    evidence_found f = map fst matched /\
    (List.length matched = 0 -> preliminary_status f = potential_gap) /\
    (List.length matched = 1 -> preliminary_status f = potential_partial) /\
    (2 <= List.length matched -> preliminary_status f = potential_compliant).
Proof.
  intros matched.
  destruct (match_well_formed evidence_texts WF) as (f & Hf & He & Hs & _).
  exists f. split; [exact Hf |].
  assert (Hfound : evidence_found f = map fst matched) by exact He.
  split; [exact Hfound |].
  rewrite Hs, Hfound. unfold status_of. rewrite length_map.
  repeat split; intros H.
  - now rewrite H.
  - now rewrite H.
  - apply Nat.leb_le in H. now rewrite H.
Qed.

Lemma preliminary_status_by_matched_count_witness :
  (exists f,
      match_evidence_to_control access_control
        [("policy.txt", "access control policy review document, access, control");
         ("notes.txt", "access to the building")] = Ok f /\
      evidence_found f = ["policy.txt"] /\
      preliminary_status f = potential_partial) /\
  (exists f,
      match_evidence_to_control access_control
        [("policy.txt", "access control policy review document, access, control");
         ("notes.txt", "access to the building");
         ("review.md", "Policy for Access Control")] = Ok f /\
      evidence_found f = ["policy.txt"; "review.md"] /\
      preliminary_status f = potential_compliant) /\
  (exists f,
      match_evidence_to_control access_control
        [("notes.txt", "access to the building")] = Ok f /\
      evidence_found f = [] /\
      preliminary_status f = potential_gap).
Proof.
  assert (WF : well_formed access_control).
  { unfold well_formed; simpl. repeat split; discriminate. }
  split; [|split].
  - pose proof (@preliminary_status_by_matched_count access_control
                  [("policy.txt", "access control policy review document, access, control");
                   ("notes.txt", "access to the building")] WF) as H.
    cbv zeta in H. destruct H as (f & Hf & He & _ & H1 & _).
    exists f. split; [exact Hf |]. split; [exact He | apply H1; reflexivity].
  - pose proof (@preliminary_status_by_matched_count access_control
                  [("policy.txt", "access control policy review document, access, control");
                   ("notes.txt", "access to the building");
                   ("review.md", "Policy for Access Control")] WF) as H.
    cbv zeta in H. destruct H as (f & Hf & He & _ & _ & H2).
    exists f. split; [exact Hf |]. split; [exact He | apply H2; vm_compute; lia].
  - pose proof (@preliminary_status_by_matched_count access_control
                  [("notes.txt", "access to the building")] WF) as H.
    cbv zeta in H. destruct H as (f & Hf & He & H0 & _).
    exists f. split; [exact Hf |]. split; [exact He | apply H0; reflexivity].
Defined.

(** C5. A control whose common-evidence list is empty (or absent, which the
    source reads as empty) matches no file, whatever the extracted texts are:
    [evidence_found] is empty and the status is [potential_gap]. *)
Theorem empty_common_evidence_is_gap
    (control : Control) (evidence_texts : dict string)
    (WF : well_formed control)
    (Hempty : c_common_evidence control = Some [] \/ c_common_evidence control = None) :
  exists f,
    match_evidence_to_control control evidence_texts = Ok f /\
    evidence_found f = [] /\
    preliminary_status f = potential_gap.
Proof.
  destruct (match_well_formed evidence_texts WF) as (f & Hf & He & Hs & _).
  exists f. split; [exact Hf |].
  assert (Hk : control_keywords control = []).
  { unfold control_keywords. destruct Hempty as [-> | ->]; reflexivity. }
  assert (Hnone : evidence_found f = []).
  { rewrite He, Hk. apply matched_files_no_keywords. }
  split; [exact Hnone |]. rewrite Hs, Hnone. reflexivity.
Qed.

Lemma empty_common_evidence_is_gap_witness :
  exists f,
    match_evidence_to_control (sample_control [])
      [("a.txt", "access control policy"); ("b.txt", "policy")] = Ok f /\
    evidence_found f = [] /\
    preliminary_status f = potential_gap.
Proof.
  apply (@empty_common_evidence_is_gap (sample_control [])
           [("a.txt", "access control policy"); ("b.txt", "policy")]).
  - unfold well_formed; simpl. repeat split; discriminate.
  - left. reflexivity.
Defined.

(** ** The keyword list *)

Lemma lower_char_not_upper (c : ascii) : is_upper (Py.lower_char c) = false.
Proof. destruct c as [[] [] [] [] [] [] [] []]; reflexivity. Qed.

Lemma lower_not_upper (s : string) :
  string_forallb (fun c => negb (is_upper c)) (Py.lower s) = true.
Proof.
  induction s as [|c t IH]; simpl; [reflexivity |].
  now rewrite lower_char_not_upper, IH.
Qed.

Lemma rev_string_forallb (p : ascii -> bool) (s acc : string) :
  string_forallb p (Py.rev_string acc s)
  = string_forallb p s && string_forallb p acc.
Proof.
  revert acc; induction s as [|c t IH]; intros acc; simpl; [reflexivity |].
  rewrite IH. simpl. destruct (p c), (string_forallb p t); reflexivity.
Qed.

Lemma rev_string_truthy (s acc : string) :
  Py.truthy (Py.rev_string acc s) = Py.truthy s || Py.truthy acc.
Proof.
  revert acc; induction s as [|c t IH]; intros acc; simpl; [reflexivity |].
  rewrite IH. simpl. apply orb_true_r.
Qed.

Lemma flush_tokens (cur : string) :
  string_forallb (fun c => negb (Py.is_space c) && negb (is_upper c)) cur = true ->
  Forall (fun kw => is_token kw = true) (Py.flush cur).
Proof.
  intros H. destruct cur as [|c t]; [constructor |].
  unfold Py.flush. constructor; [|constructor].
  unfold is_token. rewrite rev_string_truthy, rev_string_forallb, H. reflexivity.
Qed.

Lemma split_aux_tokens (s cur : string) :
  string_forallb (fun c => negb (is_upper c)) s = true ->
  string_forallb (fun c => negb (Py.is_space c) && negb (is_upper c)) cur = true ->
  Forall (fun kw => is_token kw = true) (Py.split_aux cur s).
Proof.
  revert cur; induction s as [|c t IH]; intros cur Hs Hcur; simpl.
  - now apply flush_tokens.
  - simpl in Hs. apply andb_true_iff in Hs as [Hc Ht].
    destruct (Py.is_space c) eqn:E.
    + apply Forall_app. split; [now apply flush_tokens | now apply IH].
    + apply IH; [exact Ht |]. simpl. now rewrite E, Hc, Hcur.
Qed.

Lemma keywords_are_tokens (labels : list string) :
  Forall (fun kw => is_token kw = true) (keywords_of labels).
Proof.
  unfold keywords_of. induction labels as [|l rest IH]; simpl; [constructor |].
  apply Forall_app. split; [|exact IH].
  apply split_aux_tokens; [apply lower_not_upper | reflexivity].
Qed.

(** C2, as stated, fails: the source counts the entries of the keyword list
    that occur in the text, not the occurrences in the text.  The control
    with the label "access control policy" and a file whose text is
    "access access access" have three keyword occurrences in the text, yet the
    file is not matched. *)
Lemma repeated_occurrences_counterexample :
  ~ (forall (control : Control) (evidence_texts : dict string) (f : Finding)
            (name text : string),
        match_evidence_to_control control evidence_texts = Ok f ->
        In (name, text) evidence_texts ->
        (In name (evidence_found f) <->
         2 < spec_occurrence_count (control_keywords control) (Py.lower text))).
Proof.
  intros H.
  destruct (match_well_formed [("notes.txt", "access access access")]
              (sample_control_well_formed ["access control policy"]))
    as (f & Hf & He & _).
  specialize (H _ _ f "notes.txt" "access access access" Hf (or_introl eq_refl)).
  assert (Hspec : 2 < spec_occurrence_count
                        (control_keywords (sample_control ["access control policy"]))
                        (Py.lower "access access access")).
  { vm_compute. lia. }
  apply H in Hspec. rewrite He in Hspec. vm_compute in Hspec. exact Hspec.
Qed.

(** C2, amended.  A file of the mapping is matched exactly when more than two
    entries of the control's keyword list occur in its lower-cased text.  An
    entry counts once however often it occurs in the text, so the count is at
    most the length of the keyword list (and at most the number of
    occurrences). *)
Theorem matched_iff_more_than_two_keywords
    (control : Control) (evidence_texts : dict string) (name : string)
    (WF : well_formed control) :
  exists f,
    match_evidence_to_control control evidence_texts = Ok f /\
    (In name (evidence_found f) <->
     exists text, In (name, text) evidence_texts /\
                  2 < count_matches (control_keywords control) (Py.lower text)) /\
    (forall text,
        count_matches (control_keywords control) (Py.lower text)
        <= List.length (control_keywords control) /\
        count_matches (control_keywords control) (Py.lower text)
        <= spec_occurrence_count (control_keywords control) (Py.lower text)).
Proof.
  destruct (match_well_formed evidence_texts WF) as (f & Hf & He & _).
  exists f. split; [exact Hf |]. split.
  - rewrite He. apply matched_files_spec.
  - intros text. split;
      [apply count_matches_le_length | apply count_matches_le_spec].
Qed.

Lemma matched_iff_more_than_two_keywords_witness :
  well_formed access_control /\
  exists f,
    match_evidence_to_control access_control
      [("notes.txt", "access access access")] = Ok f /\
    (In "notes.txt" (evidence_found f) <->
     exists text, In ("notes.txt", text) [("notes.txt", "access access access")] /\
                  2 < count_matches (control_keywords access_control) (Py.lower text)) /\
    (forall text,
        count_matches (control_keywords access_control) (Py.lower text)
        <= List.length (control_keywords access_control) /\
        count_matches (control_keywords access_control) (Py.lower text)
        <= spec_occurrence_count (control_keywords access_control) (Py.lower text)).
Proof.
  assert (WF : well_formed access_control).
  { unfold well_formed; simpl. repeat split; discriminate. }
  split; [exact WF |].
  exact (@matched_iff_more_than_two_keywords access_control
           [("notes.txt", "access access access")] "notes.txt" WF).
Defined.

(** C6, as stated, fails: the keyword list keeps duplicates.  The labels
    "access log" and "access policy" give the token "access" twice; the label
    "access log policy" gives the same tokens once each; the text "access log"
    scores 3 against the first list and 2 against the second. *)
Lemma duplicate_tokens_counterexample :
  ~ (forall (labels1 labels2 : list string) (text : string),
        (forall kw, In kw (keywords_of labels1) <-> In kw (keywords_of labels2)) ->
        count_matches (keywords_of labels1) (Py.lower text)
        = count_matches (keywords_of labels2) (Py.lower text)).
Proof.
  intros H.
  specialize (H ["access log"; "access policy"] ["access log policy"] "access log").
  assert (Hsame : forall kw,
             In kw (keywords_of ["access log"; "access policy"]) <->
             In kw (keywords_of ["access log policy"])).
  { intros kw. vm_compute. tauto. }
  apply H in Hsame. vm_compute in Hsame. discriminate Hsame.
Qed.

(** C6, amended.  The keyword list is the concatenation, label after label,
    of the white-space separated words of the lower-cased labels; every entry
    is a non-empty word without white space or capital letters.  Duplicates
    are kept, and the score of a text is additive over the list, so a token
    that the labels produce twice is counted twice when it occurs. *)
Theorem keyword_list_keeps_duplicates
    (control : Control) (labels1 labels2 : list string) (text : string)
    (Hlabels : get_default (c_common_evidence control) [] = labels1 ++ labels2) :
  control_keywords control = keywords_of labels1 ++ keywords_of labels2 /\
  Forall (fun kw => is_token kw = true) (control_keywords control) /\
  count_matches (control_keywords control) text
  = count_matches (keywords_of labels1) text + count_matches (keywords_of labels2) text /\
  (forall kw rest,
      count_matches (kw :: kw :: rest) text
      = 2 * count_matches [kw] text + count_matches rest text).
Proof.
  unfold control_keywords. rewrite Hlabels, keywords_of_app.
  split; [reflexivity |]. split.
  - rewrite <- keywords_of_app. apply keywords_are_tokens.
  - split; [apply count_matches_app |].
    intros kw rest. unfold count_matches. simpl.
    destruct (Py.contains kw text); simpl; lia.
Qed.

Lemma keyword_list_keeps_duplicates_witness :
  let control := sample_control ["access log"; "access policy"] in
  get_default (c_common_evidence control) [] = ["access log"] ++ ["access policy"] /\
  control_keywords control = ["access"; "log"; "access"; "policy"] /\
  count_matches (control_keywords control) "access log" = 2 + 1.
Proof.
  intros control.
  destruct (@keyword_list_keeps_duplicates control ["access log"] ["access policy"]
              "access log" eq_refl) as (Hk & _ & Hc & _).
  split; [reflexivity |]. split; [exact Hk | exact Hc].
Defined.

(** ** Dictionaries *)

Lemma dict_set_items {V} (k : string) (v : V) (d : dict V) (item : string * V) :
  In item (dict_set k v d) -> item = (k, v) \/ In item d.
Proof.
  induction d as [|[k' v'] rest IH]; simpl.
  - intros [<- | []]. now left.
  - destruct (String.eqb k k'); simpl.
    + intros [<- | H]; [now left | right; now right].
    + intros [<- | H]; [right; now left |].
      destruct (IH H) as [-> | Hin]; [now left | right; now right].
Qed.

Lemma dict_set_keys {V} (k : string) (v : V) (d : dict V) (k' : string) :
  In k' (dict_keys (dict_set k v d)) -> k' = k \/ In k' (dict_keys d).
Proof.
  unfold dict_keys. intros H. apply in_map_iff in H as [item [Hk Hin]].
  apply dict_set_items in Hin as [-> | Hin]; [now left |].
  right. apply in_map_iff. now exists item.
Qed.

(** ** Text extraction *)

(** Extraction never raises: it returns a text or [None], after the event of
    the call and at most one warning. *)
Lemma extract_total (read : string -> FileContent) (name : string) :
  exists rest o,
    extract_text_from_file read name = (EvExtract name :: rest, Ok o) /\
    (rest = [] \/ rest = [EvWarning name]).
Proof.
  unfold extract_text_from_file.
  destruct (Py.mem _ [".txt"; ".md"; ".csv"; ".json"]).
  { destruct (fc_read_text (read name)); simpl; eauto. }
  destruct (String.eqb _ ".pdf").
  { destruct (fc_pdf (read name)); simpl; eauto. }
  destruct (String.eqb _ ".docx").
  { destruct (fc_docx (read name)); simpl; eauto. }
  destruct (Py.mem _ [".xlsx"; ".xls"]).
  { destruct (fc_xlsx (read name)); simpl; eauto. }
  simpl; eauto.
Qed.

(** An extracted text is a slice [[:5000]] or a placeholder around the name. *)
Lemma extract_some_cases (read : string -> FileContent) (name text : string) :
  outcome (extract_text_from_file read name) = Ok (Some text) ->
  (exists s, text = Py.take MAX_CHARS s) \/
  (exists kind, String.length kind <= 4 /\ text = placeholder kind name).
Proof.
  unfold extract_text_from_file, outcome.
  destruct (Py.mem _ [".txt"; ".md"; ".csv"; ".json"]).
  { destruct (fc_read_text (read name)); simpl; intros H; inversion H; eauto. }
  destruct (String.eqb _ ".pdf").
  { destruct (fc_pdf (read name)); simpl; intros H; inversion H; [eauto |].
    right. exists "PDF". split; [simpl; lia | reflexivity]. }
  destruct (String.eqb _ ".docx").
  { destruct (fc_docx (read name)); simpl; intros H; inversion H; [eauto |].
    right. exists "DOCX". split; [simpl; lia | reflexivity]. }
  destruct (Py.mem _ [".xlsx"; ".xls"]).
  { destruct (fc_xlsx (read name)); simpl; intros H; inversion H; [eauto |].
    right. exists "XLSX". split; [simpl; lia | reflexivity]. }
  simpl. discriminate.
Qed.

Lemma extract_bounded (read : string -> FileContent) (name text : string) :
  String.length name + 8 <= MAX_CHARS ->
  outcome (extract_text_from_file read name) = Ok (Some text) ->
  String.length text <= MAX_CHARS.
Proof.
  intros Hname H. apply extract_some_cases in H as [[s ->] | [kind [Hk ->]]].
  - apply take_length.
  - rewrite placeholder_length. lia.
Qed.

(** The loop that fills [evidence_texts] never raises, and it keeps every
    property of the mapping that each insertion keeps. *)
Lemma extract_all_invariant (read : string -> FileContent) (P : dict string -> Prop)
    (files : list EvidenceFile) :
  (forall d ef s,
      In ef files ->
      outcome (extract_text_from_file read (ef_name ef)) = Ok (Some s) ->
      Py.truthy s = true ->
      P d -> P (dict_set (ef_name ef) s d)) ->
  forall d, P d ->
  exists t d', extract_all read files d = (t, Ok d') /\ P d'.
Proof.
  induction files as [|ef rest IH]; intros Hstep d Hd; simpl.
  - exists [], d. split; [reflexivity | exact Hd].
  - destruct (extract_total read (ef_name ef)) as (tr & o & Hx & _).
    assert (Hrest : forall d0 ef0 s,
               In ef0 rest ->
               outcome (extract_text_from_file read (ef_name ef0)) = Ok (Some s) ->
               Py.truthy s = true -> P d0 -> P (dict_set (ef_name ef0) s d0)).
    { intros d0 ef0 s Hin. apply Hstep. now right. }
    unfold bind. rewrite Hx.
    set (d1 := match o with
               | Some s => if Py.truthy s then dict_set (ef_name ef) s d else d
               | None => d
               end).
    assert (Hd1 : P d1).
    { subst d1. destruct o as [s|]; [|exact Hd].
      destruct (Py.truthy s) eqn:Ht; [|exact Hd].
      apply Hstep; [now left | now rewrite Hx | exact Ht | exact Hd]. }
    destruct (IH Hrest d1 Hd1) as (t & d' & Hall & Hd').
    rewrite Hall. eauto.
Qed.

(** The trace of the loop: one extraction call per catalogued file, in
    catalog order, and no write. *)
Lemma extract_all_trace (read : string -> FileContent) (files : list EvidenceFile)
    (d : dict string) :
  filter is_extract (trace (extract_all read files d))
  = map (fun ef => EvExtract (ef_name ef)) files /\
  existsb is_write (trace (extract_all read files d)) = false.
Proof.
  revert d; induction files as [|ef rest IH]; intros d; simpl; [auto |].
  destruct (extract_total read (ef_name ef)) as (tr & o & Hx & Htr).
  unfold bind. rewrite Hx.
  match goal with |- context [extract_all read rest ?d1] =>
    destruct (IH d1) as [IHx IHw];
    destruct (extract_all read rest d1) as [t r] eqn:Hall
  end.
  unfold trace in *. simpl in *.
  rewrite filter_app, existsb_app, IHx, IHw.
  destruct Htr as [-> | ->]; simpl; auto.
Qed.

(** ** The driver *)

Lemma assess_all_ok (controls : list Control) (d : dict string) (fs : list Finding) :
  assess_all controls d = Ok fs ->
  Forall2 (fun control f => match_evidence_to_control control d = Ok f) controls fs.
Proof.
  revert fs; induction controls as [|c rest IH]; intros fs; simpl.
  - intros H. injection H as <-. constructor.
  - destruct (match_evidence_to_control c d) as [f|e] eqn:Hf; simpl; [|discriminate].
    destruct (assess_all rest d) as [others|e] eqn:Hrest; simpl; [|discriminate].
    intros H. injection H as <-. constructor; [exact Hf | now apply IH].
Qed.

Lemma assess_all_total (controls : list Control) (d : dict string) :
  Forall well_formed controls -> exists fs, assess_all controls d = Ok fs.
Proof.
  induction 1 as [|c rest WF _ IH]; simpl; [eauto |].
  destruct (match_well_formed d WF) as (f & -> & _).
  destruct IH as [fs ->]. simpl. eauto.
Qed.

Lemma build_result_ok (args : Args) (w : World) (doc : FrameworkDoc)
    (controls : list Control) (files : list EvidenceFile) (fs : list Finding)
    (r : AssessmentResult) :
  build_result args w doc controls files fs = Ok r ->
  findings r = fs /\
  evidence_files r = files /\
  preliminary_summary r
  = {| total_controls := List.length controls;
       count_potential_compliant := count_status potential_compliant fs;
       count_potential_partial := count_status potential_partial fs;
       count_potential_gap := count_status potential_gap fs |} /\
  ~ identity_missing doc.
Proof.
  unfold build_result, identity_missing.
  destruct (doc_framework doc) as [fw|]; simpl; [|discriminate].
  destruct (fw_id fw); simpl; [|discriminate].
  destruct (fw_name fw); simpl; [|discriminate].
  destruct (fw_version fw); simpl; [|discriminate].
  intros H. injection H as <-. simpl. repeat split.
  intros [H | [H | H]]; discriminate.
Qed.


(** The run, stage by stage, once the framework and the directory are
    there. *)
Lemma main_stages (args : Args) (w : World) (doc : FrameworkDoc)
    (entries : list DirEntry) (t : list event) (d : dict string) :
  w_framework_file w = FwDoc doc ->
  w_listing w = Some entries ->
  extract_all (w_content w) (catalog args entries) [] = (t, Ok d) ->
  let controls := get_default (doc_controls doc) [] in
  let before := EvLoadFramework (arg_framework args)
                :: EvIterDir (arg_evidence_dir args) :: t in
  main args w =
  match assess_all controls d with
  | Err e => (before, Err e)
  | Ok fs =>
      match build_result args w doc controls (catalog args entries) fs with
      | Err e => (before, Err e)
      | Ok r =>
          if w_output_ok w
          then (before ++ [EvWrite (arg_output args) r], Ok r)
          else (before, Err (OSError (arg_output args)))
      end
  end.
Proof.
  intros Hfw Hls Hx. unfold main, load_framework, load_evidence_files, write_output.
  rewrite Hfw, Hls. unfold catalog in Hx. simpl. rewrite Hx. simpl.
  destruct (assess_all _ d) as [fs|e]; simpl; [|now rewrite app_nil_r].
  destruct (build_result _ _ _ _ _ fs) as [r|e]; simpl; [|now rewrite app_nil_r].
  destruct (w_output_ok w); simpl; [reflexivity | now rewrite app_nil_r].
Qed.

(** Extraction of the whole catalog always completes. *)
Lemma extract_all_total (read : string -> FileContent) (files : list EvidenceFile) :
  exists t d, extract_all read files [] = (t, Ok d).
Proof.
  destruct (@extract_all_invariant read (fun _ => True) files) with (d := @nil (string * string))
    as (t & d & H & _); eauto.
Qed.

(** A successful run went through every stage. *)
Lemma main_ok_inv (args : Args) (w : World) (r : AssessmentResult) :
  outcome (main args w) = Ok r ->
  exists doc entries t d,
    w_framework_file w = FwDoc doc /\
    w_listing w = Some entries /\
    extract_all (w_content w) (catalog args entries) [] = (t, Ok d) /\
    assess_all (get_default (doc_controls doc) []) d = Ok (findings r) /\
    build_result args w doc (get_default (doc_controls doc) [])
      (catalog args entries) (findings r) = Ok r.
Proof.
  intros H.
  destruct (w_framework_file w) as [| |doc] eqn:Hfw;
    try (unfold main, load_framework in H; rewrite Hfw in H; discriminate H).
  destruct (w_listing w) as [entries|] eqn:Hls;
    [|unfold main, load_framework, load_evidence_files in H;
      rewrite Hfw, Hls in H; discriminate H].
  destruct (extract_all_total (w_content w) (catalog args entries)) as (t & d & Hx).
  rewrite (@main_stages args w doc entries t d Hfw Hls Hx) in H.
  exists doc, entries, t, d. repeat split; auto.
  - destruct (assess_all _ d) as [fs|e]; [|discriminate H].
    destruct (build_result _ _ _ _ _ fs) as [r'|e] eqn:Hb; [|discriminate H].
    destruct (w_output_ok w); [|discriminate H].
    injection H as <-. apply build_result_ok in Hb as (-> & _). reflexivity.
  - destruct (assess_all _ d) as [fs|e]; [|discriminate H].
    destruct (build_result _ _ _ _ _ fs) as [r'|e] eqn:Hb; [|discriminate H].
    destruct (w_output_ok w); [|discriminate H].
    injection H as <-. pose proof (@build_result_ok _ _ _ _ _ _ _ Hb) as (-> & _). exact Hb.
Qed.


Lemma count_status_partition (fs : list Finding) :
  count_status potential_compliant fs + count_status potential_partial fs
  + count_status potential_gap fs = List.length fs.
Proof.
  unfold count_status. induction fs as [|f rest IH]; simpl; [reflexivity |].
  destruct (preliminary_status f); simpl; lia.
Qed.

Lemma assess_all_ids (controls : list Control) (d : dict string) (fs : list Finding) :
  assess_all controls d = Ok fs ->
  Forall2 (fun control f => c_id control = Some (control_id f) /\
                            c_name control = Some (control_name f)) controls fs.
Proof.
  intros H. apply assess_all_ok in H.
  induction H as [|c f cs fs Hf _ IH]; constructor; [|exact IH].
  unfold match_evidence_to_control in Hf.
  destruct (c_id c); simpl in Hf; [|discriminate].
  destruct (c_name c); simpl in Hf; [|discriminate].
  destruct (c_description c); simpl in Hf; [|discriminate].
  injection Hf as <-. simpl. auto.
Qed.

Lemma ids_determined (controls : list Control) (fs1 fs2 : list Finding) :
  Forall2 (fun control f => c_id control = Some (control_id f) /\
                            c_name control = Some (control_name f)) controls fs1 ->
  Forall2 (fun control f => c_id control = Some (control_id f) /\
                            c_name control = Some (control_name f)) controls fs2 ->
  map control_id fs1 = map control_id fs2.
Proof.
  intros H1; revert fs2; induction H1 as [|c f cs fs [Hid _] _ IH]; intros fs2 H2.
  - inversion H2. reflexivity.
  - inversion H2 as [|c' f2 cs' fs2' [Hid2 _] Hrest]; subst. simpl.
    f_equal; [congruence | now apply IH].
Qed.

Lemma ids_in_order (controls : list Control) (fs : list Finding) :
  Forall2 (fun control f => c_id control = Some (control_id f) /\
                            c_name control = Some (control_name f)) controls fs ->
  map c_id controls = map (fun f => Some (control_id f)) fs.
Proof.
  induction 1 as [|c f cs fs [Hid _] _ IH]; simpl; [reflexivity |].
  now rewrite Hid, IH.
Qed.

(** C7. In an assessment that was produced, [findings] has one finding per
    control of the loaded framework, in the order of the controls; two runs
    on the same framework give findings for the same controls in the same
    order, whatever their evidence directories contain and in whatever order
    the files are enumerated. *)
Theorem findings_follow_control_order
    (args : Args) (w1 w2 : World) (r1 r2 : AssessmentResult)
    (Hfw : w_framework_file w1 = w_framework_file w2)
    (H1 : outcome (main args w1) = Ok r1)
    (H2 : outcome (main args w2) = Ok r2) :
  exists doc,
    w_framework_file w1 = FwDoc doc /\
    List.length (findings r1) = List.length (get_default (doc_controls doc) []) /\
    map c_id (get_default (doc_controls doc) [])
    = map (fun f => Some (control_id f)) (findings r1) /\
    map control_id (findings r1) = map control_id (findings r2).
Proof.
  destruct (main_ok_inv _ _ H1) as (doc & e1 & t1 & d1 & Hd1 & _ & _ & Ha1 & _).
  destruct (main_ok_inv _ _ H2) as (doc2 & e2 & t2 & d2 & Hd2 & _ & _ & Ha2 & _).
  assert (doc2 = doc) by congruence. subst doc2.
  apply assess_all_ids in Ha1. apply assess_all_ids in Ha2.
  exists doc. split; [exact Hd1 |]. split; [|split].
  - symmetry. exact (Forall2_length Ha1).
  - now apply ids_in_order.
  - exact (ids_determined Ha1 Ha2).
Qed.

Lemma findings_follow_control_order_witness :
  exists r1 r2,
    outcome (main sample_args (policy_world doc_complete ["a.txt"; "b.txt"])) = Ok r1 /\
    outcome (main sample_args (policy_world doc_complete ["b.txt"; "a.txt"])) = Ok r2 /\
    map evidence_found (findings r1) = [["a.txt"; "b.txt"]] /\
    map evidence_found (findings r2) = [["b.txt"; "a.txt"]] /\
    map control_id (findings r1) = map control_id (findings r2).
Proof.
  eexists. eexists.
  split; [vm_compute; reflexivity |]. split; [vm_compute; reflexivity |].
  split; [reflexivity |]. split; [reflexivity |].
  destruct (@findings_follow_control_order sample_args
              (policy_world doc_complete ["a.txt"; "b.txt"])
              (policy_world doc_complete ["b.txt"; "a.txt"]) _ _
              eq_refl eq_refl eq_refl) as (doc & _ & _ & _ & H).
  exact H.
Defined.

(** C10. In an assessment that was produced, the three counts of the summary
    add up to [total_controls], and [total_controls] is the number of
    findings. *)
Theorem summary_counts_partition_findings
    (args : Args) (w : World) (r : AssessmentResult)
    (H : outcome (main args w) = Ok r) :
  count_potential_compliant (preliminary_summary r)
  + count_potential_partial (preliminary_summary r)
  + count_potential_gap (preliminary_summary r)
  = total_controls (preliminary_summary r) /\
  total_controls (preliminary_summary r) = List.length (findings r).
Proof.
  destruct (main_ok_inv _ _ H) as (doc & e & t & d & _ & _ & _ & Ha & Hb).
  apply build_result_ok in Hb as (_ & _ & -> & _). simpl.
  apply assess_all_ok, Forall2_length in Ha.
  rewrite count_status_partition. lia.
Qed.

Lemma summary_counts_partition_findings_witness :
  exists r,
    outcome (main sample_args (policy_world doc_complete ["a.txt"])) = Ok r /\
    count_potential_compliant (preliminary_summary r)
    + count_potential_partial (preliminary_summary r)
    + count_potential_gap (preliminary_summary r)
    = total_controls (preliminary_summary r) /\
    total_controls (preliminary_summary r) = List.length (findings r).
Proof.
  eexists. split; [vm_compute; reflexivity |].
  apply (@summary_counts_partition_findings sample_args
           (policy_world doc_complete ["a.txt"])).
  reflexivity.
Defined.

(** C4. The loop that fills the extracted-text mapping always completes, and
    no entry of the mapping is longer than 5000 characters, whatever the
    files contain: an extracted text is a slice [[:5000]], and a placeholder
    is the file name between seven or eight more characters, where the name
    of a directory entry has at most [NAME_MAX] characters. *)
Theorem extracted_texts_bounded
    (read : string -> FileContent) (files : list EvidenceFile)
    (Hnames : Forall (fun ef => String.length (ef_name ef) <= NAME_MAX) files) :
  exists t d,
    extract_all read files [] = (t, Ok d) /\
    Forall (fun item => String.length (snd item) <= MAX_CHARS) d.
Proof.
  apply (@extract_all_invariant read
           (Forall (fun item : string * string => String.length (snd item) <= MAX_CHARS)));
    [|constructor].
  intros d ef s Hin Hx _ Hd.
  apply Forall_forall. intros item Hitem.
  apply dict_set_items in Hitem as [-> | Hitem].
  - simpl. apply (extract_bounded read (ef_name ef)); [|exact Hx].
    rewrite Forall_forall in Hnames. specialize (Hnames ef Hin).
    unfold NAME_MAX in Hnames. unfold MAX_CHARS. lia.
  - rewrite Forall_forall in Hd. now apply Hd.
Qed.

Lemma extracted_texts_bounded_witness :
  let files := catalog sample_args [sample_entry "policy.txt"; sample_entry "scan.pdf"] in
  Forall (fun ef => String.length (ef_name ef) <= NAME_MAX) files /\
  exists t d,
    extract_all (text_only_reader "access control policy") files [] = (t, Ok d) /\
    Forall (fun item => String.length (snd item) <= MAX_CHARS) d.
Proof.
  intros files.
  assert (Hnames : Forall (fun ef => String.length (ef_name ef) <= NAME_MAX) files).
  { subst files. unfold NAME_MAX. repeat constructor; simpl; lia. }
  split; [exact Hnames |].
  exact (@extracted_texts_bounded (text_only_reader "access control policy") files Hnames).
Defined.

Lemma build_result_total (args : Args) (w : World) (doc : FrameworkDoc)
    (controls : list Control) (files : list EvidenceFile) (fs : list Finding) :
  ~ identity_missing doc ->
  exists r, build_result args w doc controls files fs = Ok r.
Proof.
  unfold build_result, identity_missing. intros Hid.
  destruct (doc_framework doc) as [fw|]; [|exfalso; exact (Hid I)].
  cbn [subscript rbind].
  destruct (fw_id fw), (fw_name fw), (fw_version fw); cbn [subscript rbind];
    try (eexists; reflexivity); exfalso; apply Hid;
    first [left; reflexivity | right; left; reflexivity | right; right; reflexivity].
Qed.




(** C9. A file whose extraction succeeds with the empty string gets no entry
    in the extracted-text mapping, and so it is in the [evidence_found] of no
    finding: of no finding the matcher makes from that mapping, and of no
    finding of an assessment that was produced. *)
Theorem empty_extraction_contributes_nothing
    (args : Args) (w : World) (name : string)
    (Hempty : outcome (extract_text_from_file (w_content w) name) = Ok (Some "")) :
  (forall files,
      exists t d,
        extract_all (w_content w) files [] = (t, Ok d) /\
        ~ In name (dict_keys d) /\
        forall control f,
          match_evidence_to_control control d = Ok f -> ~ In name (evidence_found f)) /\
  (forall r,
      outcome (main args w) = Ok r ->
      Forall (fun f => ~ In name (evidence_found f)) (findings r)).
Proof.
  assert (Hkeys : forall files,
             exists t d, extract_all (w_content w) files [] = (t, Ok d) /\
                         ~ In name (dict_keys d)).
  { intros files.
    apply (@extract_all_invariant (w_content w) (fun d => ~ In name (dict_keys d)));
      [|intros []].
    intros d ef s _ Hx Ht Hd Hin.
    apply dict_set_keys in Hin as [Heq | Hin]; [|now apply Hd].
    rewrite <- Heq, Hempty in Hx. injection Hx as <-. discriminate Ht. }
  assert (Hfound : forall d control f,
             ~ In name (dict_keys d) ->
             match_evidence_to_control control d = Ok f -> ~ In name (evidence_found f)).
  { intros d control f Hd Hf Hin. apply match_ok_inv in Hf as (_ & He & _).
    rewrite He in Hin. apply matched_files_keys in Hin. now apply Hd. }
  split.
  - intros files. destruct (Hkeys files) as (t & d & Hx & Hd).
    exists t, d. split; [exact Hx |]. split; [exact Hd |].
    intros control f. now apply Hfound.
  - intros r Hr.
    destruct (main_ok_inv _ _ Hr) as (doc & entries & t & d & _ & _ & Hx & Ha & _).
    destruct (Hkeys (catalog args entries)) as (t' & d' & Hx' & Hd').
    rewrite Hx in Hx'. injection Hx' as <- <-.
    apply assess_all_ok in Ha.
    induction Ha as [|c f cs fs Hf _ IH]; constructor; [|exact IH].
    now apply (Hfound d c f).
Qed.

Lemma empty_extraction_contributes_nothing_witness :
  outcome (extract_text_from_file (w_content (empty_files_world ["empty.txt"])) "empty.txt")
  = Ok (Some "") /\
  exists r,
    outcome (main sample_args (empty_files_world ["empty.txt"])) = Ok r /\
    Forall (fun f => ~ In "empty.txt" (evidence_found f)) (findings r).
Proof.
  split; [reflexivity |].
  eexists. split; [vm_compute; reflexivity |].
  apply (@empty_extraction_contributes_nothing sample_args
           (empty_files_world ["empty.txt"]) "empty.txt" eq_refl).
  reflexivity.
Defined.

(** C3, as stated, fails on both kinds of missing field.  Without the control
    list the run does not fail at all.  Without the framework identity it
    does fail, but only after extraction has been run on the evidence. *)
Lemma missing_fields_counterexample :
  ~ (forall (args : Args) (w : World) (doc : FrameworkDoc),
        w_framework_file w = FwDoc doc ->
        doc_controls doc = None ->
        is_err (outcome (main args w)) = true /\
        existsb is_extract (trace (main args w)) = false) /\
  ~ (forall (args : Args) (w : World) (doc : FrameworkDoc),
        w_framework_file w = FwDoc doc ->
        doc_framework doc = None ->
        is_err (outcome (main args w)) = true /\
        existsb is_extract (trace (main args w)) = false).
Proof.
  split; intros H.
  - destruct (H sample_args (policy_world doc_without_controls ["policy.txt"])
                doc_without_controls eq_refl eq_refl) as [Herr _].
    vm_compute in Herr. discriminate Herr.
  - destruct (H sample_args (policy_world doc_without_identity ["policy.txt"])
                doc_without_identity eq_refl eq_refl) as [_ Hextract].
    vm_compute in Hextract. discriminate Hextract.
Qed.

(** C3, amended.  A framework document without its control list loads, and
    the run is the run on the same document with an empty control list.  A
    document without its framework identity loads too; the run then ends with
    [KeyError] when the result is built, after extraction was called on every
    regular file of the evidence directory and before anything is written
    (given the directory exists and every control has its three fields). *)
Theorem missing_fields_behaviour
    (args : Args) (w : World) (doc : FrameworkDoc)
    (Hfw : w_framework_file w = FwDoc doc) :
  (doc_controls doc = None ->
   main args w
   = main args (with_doc w {| doc_framework := doc_framework doc;
                              doc_controls := Some [] |})) /\
  (doc_framework doc = None ->
   forall entries,
     w_listing w = Some entries ->
     Forall well_formed (get_default (doc_controls doc) []) ->
     outcome (main args w) = Err (KeyError "framework") /\
     filter is_extract (trace (main args w))
     = map (fun e => EvExtract (e_name e)) (filter e_is_file entries) /\
     existsb is_write (trace (main args w)) = false).
Proof.
  split.
  - intros Hc. unfold main, load_framework, build_result.
    rewrite Hfw. simpl. rewrite Hc. reflexivity.
  - intros Hid entries Hls WF.
    destruct (extract_all_total (w_content w) (catalog args entries)) as (t & d & Hx).
    rewrite (@main_stages args w doc entries t d Hfw Hls Hx).
    destruct (assess_all_total d WF) as [fs ->].
    unfold build_result. rewrite Hid. simpl.
    pose proof (extract_all_trace (w_content w) (catalog args entries) []) as [Ht Hw].
    rewrite Hx in Ht, Hw. unfold trace in Ht, Hw. simpl in Ht, Hw.
    split; [reflexivity |]. split; [|exact Hw].
    rewrite Ht. unfold catalog. rewrite map_map. reflexivity.
Qed.

Lemma missing_fields_behaviour_witness :
  (exists r,
      outcome (main sample_args (policy_world doc_without_controls ["policy.txt"])) = Ok r /\
      findings r = []) /\
  outcome (main sample_args (policy_world doc_without_identity ["policy.txt"]))
  = Err (KeyError "framework") /\
  filter is_extract
    (trace (main sample_args (policy_world doc_without_identity ["policy.txt"])))
  = [EvExtract "policy.txt"].
Proof.
  split.
  - destruct (@missing_fields_behaviour sample_args
                (policy_world doc_without_controls ["policy.txt"])
                doc_without_controls eq_refl) as [Hsame _].
    rewrite (Hsame eq_refl). eexists. split; vm_compute; reflexivity.
  - destruct (@missing_fields_behaviour sample_args
                (policy_world doc_without_identity ["policy.txt"])
                doc_without_identity eq_refl) as [_ Hlate].
    destruct (Hlate eq_refl [sample_entry "policy.txt"] eq_refl) as (Ho & Ht & _).
    + repeat constructor; discriminate.
    + split; [exact Ho | exact Ht].
Defined.

(** * Further properties of [assess_controls.py] *)

(** ** Slices and substrings *)

Lemma take_length_min (n : nat) (s : string) :
  String.length (Py.take n s) = Nat.min (String.length s) n.
Proof.
  revert s; induction n as [|n IH]; intros [|c t]; simpl; try lia.
  rewrite IH. lia.
Qed.

Lemma take_whole (n : nat) (s : string) :
  String.length s <= n -> Py.take n s = s.
Proof.
  revert s; induction n as [|n IH]; intros [|c t]; simpl; intros H;
    try reflexivity; try lia.
  f_equal. apply IH. lia.
Qed.

Lemma take_is_prefix (n : nat) (s : string) : is_prefix (Py.take n s) s = true.
Proof.
  unfold is_prefix. revert s; induction n as [|n IH]; intros [|c t]; simpl;
    try reflexivity.
  now rewrite Ascii.eqb_refl, IH.
Qed.

Lemma string_app_assoc (a b c : string) : ((a ++ b) ++ c = a ++ b ++ c)%string.
Proof. induction a as [|x a IH]; simpl; [reflexivity | now rewrite IH]. Qed.

Lemma startswith_app (kw rest : string) : Py.startswith kw (kw ++ rest) = true.
Proof.
  induction kw as [|c k IH]; simpl; [reflexivity |].
  now rewrite Ascii.eqb_refl, IH.
Qed.

Lemma contains_here (kw text : string) :
  Py.startswith kw text = true -> Py.contains kw text = true.
Proof. intros H. destruct text; simpl; now rewrite H. Qed.

Lemma contains_app (before kw after : string) :
  Py.contains kw (before ++ kw ++ after) = true.
Proof.
  induction before as [|c b IH]; simpl.
  - apply contains_here, startswith_app.
  - rewrite IH. apply orb_true_r.
Qed.

(** The trace and the value of an extraction, case by case. *)
Lemma extract_cases (read : string -> FileContent) (name : string) :
  extract_text_from_file read name =
  let suffix := Py.lower (Py.suffix name) in
  if text_like suffix then
    match fc_read_text (read name) with
    | Some s => ([EvExtract name], Ok (Some (Py.take MAX_CHARS s)))
    | None => ([EvExtract name; EvWarning name], Ok None)
    end
  else if String.eqb suffix ".pdf" then
    ([EvExtract name],
     Ok (Some match fc_pdf (read name) with
              | Some pages => Py.take MAX_CHARS (pages_text pages)
              | None => placeholder "PDF" name
              end))
  else if String.eqb suffix ".docx" then
    ([EvExtract name],
     Ok (Some match fc_docx (read name) with
              | Some paragraphs =>
                  Py.take MAX_CHARS (Py.join (String "010"%char EmptyString) paragraphs)
              | None => placeholder "DOCX" name
              end))
  else if String.eqb suffix ".xlsx" || String.eqb suffix ".xls" then
    ([EvExtract name],
     Ok (Some match fc_xlsx (read name) with
              | Some sheets => Py.take MAX_CHARS (workbook_text sheets)
              | None => placeholder "XLSX" name
              end))
  else ([EvExtract name], Ok None).
Proof.
  unfold extract_text_from_file, text_like. cbv zeta.
  destruct (Py.mem _ [".txt"; ".md"; ".csv"; ".json"]).
  { destruct (fc_read_text (read name)); reflexivity. }
  destruct (String.eqb _ ".pdf").
  { destruct (fc_pdf (read name)); reflexivity. }
  destruct (String.eqb _ ".docx").
  { destruct (fc_docx (read name)); reflexivity. }
  unfold Py.mem. cbn [existsb]. rewrite orb_false_r.
  destruct (String.eqb _ ".xlsx" || String.eqb _ ".xls").
  { destruct (fc_xlsx (read name)); reflexivity. }
  reflexivity.
Qed.

Lemma recognized_cases (suffix : string) :
  recognized suffix
  = text_like suffix || String.eqb suffix ".pdf" || String.eqb suffix ".docx"
    || (String.eqb suffix ".xlsx" || String.eqb suffix ".xls").
Proof.
  unfold recognized, text_like, Py.mem. cbn [existsb].
  destruct (String.eqb suffix ".txt"), (String.eqb suffix ".md"),
    (String.eqb suffix ".csv"), (String.eqb suffix ".json"),
    (String.eqb suffix ".pdf"), (String.eqb suffix ".docx"),
    (String.eqb suffix ".xlsx"), (String.eqb suffix ".xls"); reflexivity.
Qed.

(** When an extraction gives no text, and when it logs a warning. *)
Lemma extraction_none_cases (read : string -> FileContent) (name : string) :
  (outcome (extract_text_from_file read name) = Ok None <->
   recognized (Py.lower (Py.suffix name)) = false \/
   (text_like (Py.lower (Py.suffix name)) = true /\ fc_read_text (read name) = None)) /\
  (In (EvWarning name) (trace (extract_text_from_file read name)) <->
   text_like (Py.lower (Py.suffix name)) = true /\ fc_read_text (read name) = None).
Proof.
  rewrite extract_cases, recognized_cases. cbv zeta. unfold outcome, trace.
  destruct (text_like _).
  { destruct (fc_read_text (read name)); cbn [fst snd In orb]; split; split;
      try (intros H; discriminate H); try tauto.
    - intros [H | [_ H]]; discriminate H.
    - intros [H | []]; discriminate H.
    - intros [_ H]; discriminate H. }
  destruct (String.eqb _ ".pdf");
    [cbn [fst snd In orb]; split; split;
     [intros H; discriminate H | intros [H | [H _]]; discriminate H
     | intros [H | []]; discriminate H | intros [H _]; discriminate H] |].
  destruct (String.eqb _ ".docx");
    [cbn [fst snd In orb]; split; split;
     [intros H; discriminate H | intros [H | [H _]]; discriminate H
     | intros [H | []]; discriminate H | intros [H _]; discriminate H] |].
  destruct (String.eqb _ ".xlsx" || String.eqb _ ".xls");
    cbn [fst snd In orb]; split; split;
      try (intros H; discriminate H); try tauto;
      try (intros [H | [H _]]; discriminate H);
      try (intros [H | []]; discriminate H);
      try (intros [H _]; discriminate H).
Qed.

(** X1. Extraction returns no text in exactly two cases: the lower-cased
    suffix is none of the eight the function dispatches on, or the file is
    read as plain text and the read raises.  A warning is logged in the
    second case only; a document reader that raises never leads here. *)
Theorem extraction_yields_nothing_iff (read : string -> FileContent) (name : string) :
  (outcome (extract_text_from_file read name) = Ok None <->
   recognized (Py.lower (Py.suffix name)) = false \/
   (text_like (Py.lower (Py.suffix name)) = true /\ fc_read_text (read name) = None)) /\
  (In (EvWarning name) (trace (extract_text_from_file read name)) <->
   text_like (Py.lower (Py.suffix name)) = true /\ fc_read_text (read name) = None).
Proof. apply extraction_none_cases. Qed.

(** X2. A plain-text file is stored as it is when it has at most 5000
    characters; a longer one is cut to its first 5000 characters. *)
Theorem text_file_truncation
    (read : string -> FileContent) (name s : string)
    (Hsuffix : text_like (Py.lower (Py.suffix name)) = true)
    (Hread : fc_read_text (read name) = Some s) :
  exists text,
    extract_text_from_file read name = ([EvExtract name], Ok (Some text)) /\
    is_prefix text s = true /\
    String.length text = Nat.min (String.length s) MAX_CHARS /\
    (String.length s <= MAX_CHARS -> text = s).
Proof.
  exists (Py.take MAX_CHARS s). rewrite extract_cases. cbv zeta.
  rewrite Hsuffix, Hread. split; [reflexivity |].
  split; [apply take_is_prefix |]. split; [apply take_length_min | apply take_whole].
Qed.

Lemma text_file_truncation_witness :
  exists text,
    extract_text_from_file (text_only_reader "access control policy") "Policy.TXT"
    = ([EvExtract "Policy.TXT"], Ok (Some text)) /\
    is_prefix text "access control policy" = true /\
    String.length text = Nat.min (String.length "access control policy") MAX_CHARS /\
    (String.length "access control policy" <= MAX_CHARS -> text = "access control policy").
Proof.
  apply (@text_file_truncation (text_only_reader "access control policy")
           "Policy.TXT" "access control policy"); reflexivity.
Defined.

(** X3. When the reader of a PDF, a word-processor document or a spreadsheet
    raises, extraction logs no warning and returns the placeholder
    [[KIND: name]]: a non-empty text in which the file name occurs.  Both
    spreadsheet suffixes give the kind XLSX. *)
Theorem failing_reader_gives_placeholder
    (read : string -> FileContent) (name kind : string)
    (Hcase :
       (Py.lower (Py.suffix name) = ".pdf" /\ fc_pdf (read name) = None /\ kind = "PDF") \/
       (Py.lower (Py.suffix name) = ".docx" /\ fc_docx (read name) = None /\ kind = "DOCX") \/
       ((Py.lower (Py.suffix name) = ".xlsx" \/ Py.lower (Py.suffix name) = ".xls") /\
        fc_xlsx (read name) = None /\ kind = "XLSX")) :
  extract_text_from_file read name
  = ([EvExtract name], Ok (Some ("[" ++ kind ++ ": " ++ name ++ "]")%string)) /\
  Py.contains name ("[" ++ kind ++ ": " ++ name ++ "]")%string = true /\
  Py.truthy ("[" ++ kind ++ ": " ++ name ++ "]")%string = true.
Proof.
  split; [|split; [|reflexivity]].
  - rewrite extract_cases. cbv zeta.
    destruct Hcase as [(-> & -> & ->) | [(-> & -> & ->) | ([-> | ->] & -> & ->)]];
      reflexivity.
  - assert (E : ("[" ++ kind ++ ": " ++ name ++ "]")%string
                = (("[" ++ kind ++ ": ") ++ name ++ "]")%string).
    { now rewrite !string_app_assoc. }
    rewrite E. apply contains_app.
Qed.

Lemma failing_reader_gives_placeholder_witness :
  extract_text_from_file broken_pdf_reader "scan.PDF"
  = ([EvExtract "scan.PDF"], Ok (Some "[PDF: scan.PDF]")) /\
  Py.contains "scan.PDF" "[PDF: scan.PDF]" = true /\
  Py.truthy "[PDF: scan.PDF]" = true.
Proof.
  apply (@failing_reader_gives_placeholder broken_pdf_reader "scan.PDF" "PDF").
  left. repeat split; reflexivity.
Defined.

Lemma map_firstn_replace {A B} (g : A -> B) (x y : A) :
  g x = g y ->
  forall n before after,
    map g (firstn n (before ++ x :: after)) = map g (firstn n (before ++ y :: after)).
Proof.
  intros Hg n before. revert n.
  induction before as [|b rest IH]; intros [|n] after; simpl; try reflexivity.
  - now rewrite Hg.
  - now rewrite IH.
Qed.

(** X4. Extraction looks at the first five pages of a PDF, the first two
    worksheets of a workbook and the first fifty rows of each worksheet it
    reads: whatever follows them does not change the text, wherever the
    worksheet stands in the workbook. *)
Theorem later_pages_sheets_rows_ignored
    (pages more_pages : list (option string))
    (sheets more_sheets before after : list (list (list Cell)))
    (rows more_rows : list (list Cell))
    (Hpages : 5 <= List.length pages)
    (Hsheets : 2 <= List.length sheets)
    (Hrows : 50 <= List.length rows) :
  pages_text (pages ++ more_pages) = pages_text pages /\
  workbook_text (sheets ++ more_sheets) = workbook_text sheets /\
  workbook_text (before ++ (rows ++ more_rows) :: after)
  = workbook_text (before ++ rows :: after).
Proof.
  unfold pages_text, workbook_text. repeat split.
  - rewrite firstn_app. replace (5 - List.length pages) with 0 by lia.
    now rewrite firstn_O, app_nil_r.
  - rewrite firstn_app. replace (2 - List.length sheets) with 0 by lia.
    now rewrite firstn_O, app_nil_r.
  - f_equal. apply map_firstn_replace.
    rewrite firstn_app. replace (50 - List.length rows) with 0 by lia.
    now rewrite firstn_O, app_nil_r.
Qed.

Lemma later_pages_sheets_rows_ignored_witness :
  pages_text (repeat (Some "page ") 5 ++ [Some "appendix"])
  = pages_text (repeat (Some "page ") 5) /\
  workbook_text (repeat [] 2 ++ [[[{| cell_truthy := true; cell_str := "x" |}]]])
  = workbook_text (repeat [] 2) /\
  workbook_text ([[[{| cell_truthy := true; cell_str := "first" |}]]]
                   ++ (repeat [] 50 ++ [[{| cell_truthy := true; cell_str := "x" |}]])
                   :: [])
  = workbook_text ([[[{| cell_truthy := true; cell_str := "first" |}]]]
                     ++ repeat [] 50 :: []).
Proof.
  apply (@later_pages_sheets_rows_ignored
           (repeat (Some "page ") 5) [Some "appendix"]
           (repeat [] 2) [[[{| cell_truthy := true; cell_str := "x" |}]]]
           [[[{| cell_truthy := true; cell_str := "first" |}]]] []
           (repeat [] 50) [[{| cell_truthy := true; cell_str := "x" |}]]);
    simpl; lia.
Defined.

(** ** The extracted-text mapping *)

Lemma truthy_iff (s : string) : Py.truthy s = true <-> s <> "".
Proof. destruct s; simpl; split; intros H; congruence. Qed.

Lemma dict_set_fresh {V} (k : string) (v : V) (d : dict V) :
  ~ In k (dict_keys d) -> dict_set k v d = d ++ [(k, v)].
Proof.
  induction d as [|[k' v'] rest IH]; simpl; intros H; [reflexivity |].
  destruct (String.eqb_spec k k') as [-> | Hne]; [exfalso; apply H; now left |].
  f_equal. apply IH. intros Hin. apply H. now right.
Qed.

Lemma dict_set_has {V} (k : string) (v : V) (d : dict V) : In (k, v) (dict_set k v d).
Proof.
  induction d as [|[k' v'] rest IH]; simpl; [now left |].
  destruct (String.eqb k k'); [now left | now right].
Qed.

Lemma dict_set_keeps {V} (k : string) (v : V) (d : dict V) (n : string) (s : V) :
  In (n, s) d -> (k = n -> v = s) -> In (n, s) (dict_set k v d).
Proof.
  induction d as [|[k' v'] rest IH]; simpl; [tauto |].
  intros [Heq | Hin] Hsame.
  - injection Heq as -> ->.
    destruct (String.eqb_spec k n) as [-> | Hne]; [|now left].
    left. now rewrite (Hsame eq_refl).
  - destruct (String.eqb k k'); [now right | right; now apply IH].
Qed.

Lemma dict_set_keys_nodup {V} (k : string) (v : V) (d : dict V) :
  NoDup (dict_keys d) -> NoDup (dict_keys (dict_set k v d)).
Proof.
  induction d as [|[k' v'] rest IH]; simpl; intros H.
  - constructor; [intros [] | constructor].
  - inversion H as [|k0 ks Hnotin Hrest]; subst.
    destruct (String.eqb_spec k k') as [-> | Hne]; simpl; [now constructor |].
    constructor; [|now apply IH].
    intros Hin. apply dict_set_keys in Hin as [Heq | Hin]; [congruence | now apply Hnotin].
Qed.

Lemma extract_all_spec (read : string -> FileContent) (files : list EvidenceFile) :
  forall d0,
    NoDup (dict_keys d0) ->
    (forall n s, In (n, s) d0 ->
                 outcome (extract_text_from_file read n) = Ok (Some s) /\
                 Py.truthy s = true) ->
    exists t d,
      extract_all read files d0 = (t, Ok d) /\
      NoDup (dict_keys d) /\
      forall n s,
        In (n, s) d <->
        In (n, s) d0 \/
        (In n (map ef_name files) /\
         outcome (extract_text_from_file read n) = Ok (Some s) /\
         Py.truthy s = true).
Proof.
  induction files as [|ef rest IH]; intros d0 Hnd Hcons.
  - exists [], d0. split; [reflexivity |]. split; [exact Hnd |].
    intros n s. simpl. tauto.
  - destruct (extract_total read (ef_name ef)) as (tr & o & Hx & _).
    cbn [extract_all]. unfold bind. rewrite Hx.
    set (d1 := match o with
               | Some s => if Py.truthy s then dict_set (ef_name ef) s d0 else d0
               | None => d0
               end).
    assert (Ho : outcome (extract_text_from_file read (ef_name ef)) = Ok o)
      by now rewrite Hx.
    assert (Hd1 : forall n s,
               In (n, s) d1 <->
               In (n, s) d0 \/
               (n = ef_name ef /\
                outcome (extract_text_from_file read n) = Ok (Some s) /\
                Py.truthy s = true)).
    { intros n s. subst d1. destruct o as [s0|].
      - destruct (Py.truthy s0) eqn:Ht.
        + split.
          * intros Hin. apply dict_set_items in Hin as [Heq | Hin]; [|now left].
            injection Heq as -> ->. right. auto.
          * intros [Hin | (-> & Hs & _)].
            -- apply dict_set_keeps; [exact Hin |].
               intros <-. apply Hcons in Hin as [Hs _]. congruence.
            -- assert (s = s0) by congruence. subst s. apply dict_set_has.
        + split; [now left |]. intros [Hin | (-> & Hs & Hts)]; [exact Hin |].
          assert (s = s0) by congruence. subst s. congruence.
      - split; [now left |]. intros [Hin | (-> & Hs & _)]; [exact Hin | congruence]. }
    assert (Hnd1 : NoDup (dict_keys d1)).
    { subst d1. destruct o as [s0|]; [|exact Hnd].
      destruct (Py.truthy s0); [now apply dict_set_keys_nodup | exact Hnd]. }
    assert (Hcons1 : forall n s, In (n, s) d1 ->
                 outcome (extract_text_from_file read n) = Ok (Some s) /\
                 Py.truthy s = true).
    { intros n s Hin. apply Hd1 in Hin as [Hin | (_ & Hs & Ht)]; [now apply Hcons | auto]. }
    destruct (IH d1 Hnd1 Hcons1) as (t & d & Hall & Hndd & Hd).
    rewrite Hall. exists (EvExtract (ef_name ef) :: tr ++ t), d.
    split; [reflexivity |]. split; [exact Hndd |].
    intros n s. rewrite Hd, Hd1. simpl. intuition (subst; auto).
Qed.

(** The entries of the mapping that the extraction loop builds from the empty one. *)
Lemma extract_all_entries
    (read : string -> FileContent) (files : list EvidenceFile) :
  exists t d,
    extract_all read files [] = (t, Ok d) /\
    NoDup (dict_keys d) /\
    forall name s,
      In (name, s) d <->
      In name (map ef_name files) /\
      outcome (extract_text_from_file read name) = Ok (Some s) /\
      s <> "".
Proof.
  destruct (@extract_all_spec read files [] (NoDup_nil _)) as (t & d & Hx & Hnd & Hd).
  { intros n s []. }
  exists t, d. split; [exact Hx |]. split; [exact Hnd |].
  intros name s. rewrite Hd, truthy_iff. simpl. tauto.
Qed.


Lemma nodup_keys_filter {V} (p : string * V -> bool) (d : dict V) :
  NoDup (map fst d) -> NoDup (map fst (filter p d)).
Proof.
  induction d as [|item rest IH]; simpl; intros H; [constructor |].
  inversion H as [|k ks Hnotin Hrest]; subst.
  destruct (p item); simpl; [|now apply IH].
  constructor; [|now apply IH].
  intros Hin. apply Hnotin. apply in_map_iff in Hin as [x [Hx Hin]].
  apply filter_In in Hin as [Hin _]. apply in_map_iff. now exists x.
Qed.

(** What a produced assessment lists as evidence found. *)
Lemma findings_evidence_sound
    (args : Args) (w : World) (r : AssessmentResult)
    (Hrun : outcome (main args w) = Ok r) :
  Forall (fun f =>
            NoDup (evidence_found f) /\
            forall name, In name (evidence_found f) ->
              In name (map ef_name (evidence_files r)) /\
              exists text,
                outcome (extract_text_from_file (w_content w) name) = Ok (Some text) /\
                text <> "" /\
                2 < count_matches (keywords_of (common_evidence_types f)) (Py.lower text))
         (findings r).
Proof.
  destruct (main_ok_inv _ _ Hrun) as (doc & entries & t & d & _ & _ & Hx & Ha & Hb).
  apply build_result_ok in Hb as (_ & Hfiles & _).
  destruct (extract_all_entries (w_content w) (catalog args entries))
    as (t' & d' & Hx' & Hnd & Hd).
  rewrite Hx in Hx'. injection Hx' as <- <-.
  apply assess_all_ok in Ha.
  induction Ha as [|c f cs fs Hf _ IH]; constructor; [|exact IH].
  assert (Hlabels : common_evidence_types f = get_default (c_common_evidence c) []).
  { unfold match_evidence_to_control in Hf.
    destruct (c_id c); simpl in Hf; [|discriminate].
    destruct (c_name c); simpl in Hf; [|discriminate].
    destruct (c_description c); simpl in Hf; [|discriminate].
    injection Hf as <-. reflexivity. }
  apply match_ok_inv in Hf as (_ & He & _). rewrite He. split.
  - unfold matched_files. now apply nodup_keys_filter.
  - intros name Hin. apply matched_files_spec in Hin as (text & Hin & Hm).
    apply Hd in Hin as (Hname & Hs & Hne). rewrite Hfiles.
    split; [exact Hname |]. exists text. rewrite Hlabels. auto.
Qed.

(** X6. In an assessment that was produced, no finding lists a file twice in
    [evidence_found], and every file it lists is in the catalog
    [evidence_files], has a non-empty extracted text, and scores more than
    two against the finding's own common-evidence labels. *)
Theorem evidence_found_is_sound
    (args : Args) (w : World) (r : AssessmentResult)
    (Hrun : outcome (main args w) = Ok r) :
  Forall (fun f =>
            NoDup (evidence_found f) /\
            forall name, In name (evidence_found f) ->
              In name (map ef_name (evidence_files r)) /\
              exists text,
                outcome (extract_text_from_file (w_content w) name) = Ok (Some text) /\
                text <> "" /\
                2 < count_matches (keywords_of (common_evidence_types f)) (Py.lower text))
         (findings r).
Proof. exact (findings_evidence_sound args w Hrun). Qed.

Lemma evidence_found_is_sound_witness :
  exists r,
    outcome (main sample_args mixed_world) = Ok r /\
    map evidence_found (findings r) = [["policy.txt"]] /\
    Forall (fun f =>
              NoDup (evidence_found f) /\
              forall name, In name (evidence_found f) ->
                In name (map ef_name (evidence_files r)) /\
                exists text,
                  outcome (extract_text_from_file (w_content mixed_world) name)
                  = Ok (Some text) /\
                  text <> "" /\
                  2 < count_matches (keywords_of (common_evidence_types f)) (Py.lower text))
           (findings r).
Proof.
  eexists. split; [vm_compute; reflexivity |]. split; [reflexivity |].
  apply (@evidence_found_is_sound sample_args mixed_world). reflexivity.
Defined.

(** X7. In an assessment that was produced, the catalog [evidence_files]
    names the regular files of the evidence directory, in enumeration order
    and whether or not text could be extracted from them.  A regular file
    whose suffix is not recognized is in the catalog and in the
    [evidence_found] of no finding. *)
Theorem unrecognized_file_cataloged_never_matched
    (args : Args) (w : World) (r : AssessmentResult)
    (entries : list DirEntry) (e : DirEntry)
    (Hrun : outcome (main args w) = Ok r)
    (Hlisting : w_listing w = Some entries)
    (Hin : In e entries)
    (Hfile : e_is_file e = true)
    (Hsuffix : recognized (Py.lower (Py.suffix (e_name e))) = false) :
  map ef_name (evidence_files r) = map e_name (filter e_is_file entries) /\
  In (catalog_entry (arg_evidence_dir args) e) (evidence_files r) /\
  Forall (fun f => ~ In (e_name e) (evidence_found f)) (findings r).
Proof.
  pose proof (findings_evidence_sound _ _ Hrun) as Hsound.
  destruct (main_ok_inv _ _ Hrun) as (doc & entries' & t & d & _ & Hls & _ & _ & Hb).
  assert (entries' = entries) by congruence. subst entries'.
  apply build_result_ok in Hb as (_ & Hfiles & _). rewrite Hfiles.
  split; [|split].
  - unfold catalog. rewrite map_map. reflexivity.
  - unfold catalog. apply in_map. apply filter_In. auto.
  - eapply Forall_impl; [|exact Hsound].
    intros f [_ Hf] Hfound. destruct (Hf _ Hfound) as (_ & text & Hs & _).
    destruct (extraction_none_cases (w_content w) (e_name e)) as [[_ Hnone] _].
    rewrite Hnone in Hs; [discriminate Hs | now left].
Qed.

Lemma unrecognized_file_cataloged_never_matched_witness :
  exists r,
    outcome (main sample_args mixed_world) = Ok r /\
    map ef_name (evidence_files r) = ["policy.txt"; "diagram.PNG"] /\
    In (catalog_entry "evidence" (sample_entry "diagram.PNG")) (evidence_files r) /\
    Forall (fun f => ~ In "diagram.PNG" (evidence_found f)) (findings r).
Proof.
  eexists. split; [vm_compute; reflexivity |].
  apply (@unrecognized_file_cataloged_never_matched sample_args mixed_world _
           mixed_entries (sample_entry "diagram.PNG"));
    try reflexivity.
  right. left. reflexivity.
Defined.

(** ** The matcher *)

Lemma matched_files_app (ks : list string) (d1 d2 : dict string) :
  matched_files ks (d1 ++ d2) = matched_files ks d1 ++ matched_files ks d2.
Proof. unfold matched_files. now rewrite filter_app, map_app. Qed.

Lemma status_of_monotone (l1 l2 : list string) :
  List.length l1 <= List.length l2 ->
  status_rank (status_of l1) <= status_rank (status_of l2).
Proof.
  unfold status_of. intros H.
  destruct (Nat.leb_spec 2 (List.length l1)), (Nat.leb_spec 2 (List.length l2));
    destruct (Nat.eqb_spec (List.length l1) 1), (Nat.eqb_spec (List.length l2) 1);
    simpl; lia.
Qed.

Lemma matched_files_few (ks : list string) (ev : dict string) :
  List.length ks <= 2 -> matched_files ks ev = [].
Proof.
  intros Hfew. unfold matched_files.
  induction ev as [|item rest IH]; [reflexivity |]. simpl.
  unfold is_matched at 1.
  pose proof (count_matches_le_length ks (Py.lower (snd item))).
  destruct (Nat.ltb_spec 2 (count_matches ks (Py.lower (snd item)))); [lia | exact IH].
Qed.

(** X8. A control whose common-evidence labels have at most two words in all
    can never be matched: its finding has no evidence and the status
    [potential_gap], whatever the evidence is. *)
Theorem few_keywords_always_gap
    (control : Control) (evidence_texts : dict string)
    (WF : well_formed control)
    (Hfew : List.length (control_keywords control) <= 2) :
  exists f,
    match_evidence_to_control control evidence_texts = Ok f /\
    evidence_found f = [] /\
    preliminary_status f = potential_gap.
Proof.
  destruct (match_well_formed evidence_texts WF) as (f & Hf & He & Hs & _).
  exists f. split; [exact Hf |].
  assert (Hnone : evidence_found f = []).
  { rewrite He. now apply matched_files_few. }
  split; [exact Hnone |]. rewrite Hs, Hnone. reflexivity.
Qed.

Lemma few_keywords_always_gap_witness :
  exists f,
    match_evidence_to_control (sample_control ["Security policy"])
      [("policy.txt", "security policy security policy security policy")] = Ok f /\
    evidence_found f = [] /\
    preliminary_status f = potential_gap.
Proof.
  apply (@few_keywords_always_gap (sample_control ["Security policy"])
           [("policy.txt", "security policy security policy security policy")]).
  - apply sample_control_well_formed.
  - vm_compute. lia.
Defined.

(** X9. Adding a file under a new name to the extracted texts never lowers a
    control's preliminary status: the evidence found stays as it was or gains
    the new name at its end. *)
Theorem new_file_never_lowers_status
    (control : Control) (evidence_texts : dict string) (name text : string)
    (WF : well_formed control)
    (Hfresh : ~ In name (dict_keys evidence_texts)) :
  exists f f',
    match_evidence_to_control control evidence_texts = Ok f /\
    match_evidence_to_control control (dict_set name text evidence_texts) = Ok f' /\
    (evidence_found f' = evidence_found f \/
     evidence_found f' = evidence_found f ++ [name]) /\
    status_rank (preliminary_status f) <= status_rank (preliminary_status f').
Proof.
  destruct (match_well_formed evidence_texts WF) as (f & Hf & He & Hs & _).
  destruct (match_well_formed (dict_set name text evidence_texts) WF)
    as (f' & Hf' & He' & Hs' & _).
  exists f, f'. split; [exact Hf |]. split; [exact Hf' |].
  assert (Hgrow : evidence_found f' = evidence_found f \/
                  evidence_found f' = evidence_found f ++ [name]).
  { assert (E : matched_files (control_keywords control)
                    (dict_set name text evidence_texts)
                  = matched_files (control_keywords control) evidence_texts
                    ++ (if is_matched (control_keywords control) text
                        then [name] else [])).
    { rewrite (@dict_set_fresh _ name text evidence_texts Hfresh), matched_files_app.
      f_equal. unfold matched_files. cbn [filter snd].
      now destruct (is_matched (control_keywords control) text). }
    rewrite He', He, E.
    destruct (is_matched (control_keywords control) text);
      [now right | left; apply app_nil_r]. }
  split; [exact Hgrow |]. rewrite Hs, Hs'. apply status_of_monotone.
  destruct Hgrow as [-> | ->]; [lia | rewrite length_app; lia].
Qed.

Lemma new_file_never_lowers_status_witness :
  exists f f',
    match_evidence_to_control access_control
      [("a.txt", "access control policy")] = Ok f /\
    match_evidence_to_control access_control
      (dict_set "b.txt" "Policy on access control"
         [("a.txt", "access control policy")]) = Ok f' /\
    preliminary_status f = potential_partial /\
    preliminary_status f' = potential_compliant /\
    status_rank (preliminary_status f) <= status_rank (preliminary_status f').
Proof.
  destruct (@new_file_never_lowers_status access_control
              [("a.txt", "access control policy")] "b.txt" "Policy on access control")
    as (f & f' & Hf & Hf' & _ & Hle).
  - apply sample_control_well_formed.
  - simpl. intros [H | []]. discriminate H.
  - exists f, f'. split; [exact Hf |]. split; [exact Hf' |].
    vm_compute in Hf, Hf'. injection Hf as <-. injection Hf' as <-.
    split; [reflexivity |]. split; [reflexivity | exact Hle].
Defined.

(** X10. The matcher returns a finding only for a control that carries
    [id], [name] and [description]; a control without one of them raises
    [KeyError] for the first of these keys that is missing, in that order,
    whatever the evidence is. *)
Theorem matcher_fails_on_first_missing_key
    (control : Control) (evidence_texts : dict string) :
  (forall f, match_evidence_to_control control evidence_texts = Ok f ->
             c_id control <> None /\ c_name control <> None /\
             c_description control <> None) /\
  (c_id control = None ->
   match_evidence_to_control control evidence_texts = Err (KeyError "id")) /\
  (c_id control <> None -> c_name control = None ->
   match_evidence_to_control control evidence_texts = Err (KeyError "name")) /\
  (c_id control <> None -> c_name control <> None -> c_description control = None ->
   match_evidence_to_control control evidence_texts = Err (KeyError "description")).
Proof.
  split.
  - intros f Hf. now apply match_ok_inv in Hf.
  - unfold match_evidence_to_control.
    destruct (c_id control), (c_name control), (c_description control); simpl;
      repeat split; intros; congruence.
Qed.

Lemma matcher_fails_on_first_missing_key_witness :
  let control := {| c_id := Some "CC1.1"; c_name := None; c_description := None;
                    c_common_evidence := None; c_points_of_focus := None |} in
  match_evidence_to_control control [("a.txt", "access control policy")]
  = Err (KeyError "name").
Proof.
  intros control.
  destruct (@matcher_fails_on_first_missing_key control
              [("a.txt", "access control policy")]) as (_ & _ & Hname & _).
  apply Hname; [discriminate | reflexivity].
Defined.

(** The fields that a finding takes over from its control. *)
Lemma finding_fields_of
    (control : Control) (evidence_texts : dict string) (f : Finding)
    (Hf : match_evidence_to_control control evidence_texts = Ok f) :
  exists description,
    c_description control = Some description /\
    is_prefix (control_description f) description = true /\
    String.length (control_description f) = Nat.min (String.length description) 500 /\
    (String.length description <= 500 -> control_description f = description) /\
    points_of_focus_count f = List.length (get_default (c_points_of_focus control) []) /\
    common_evidence_types f = get_default (c_common_evidence control) [] /\
    requires_ai_analysis f = true.
Proof.
  unfold match_evidence_to_control in Hf.
  destruct (c_id control); cbn [subscript rbind] in Hf; [|discriminate].
  destruct (c_name control); cbn [subscript rbind] in Hf; [|discriminate].
  destruct (c_description control) as [d|]; cbn [subscript rbind] in Hf; [|discriminate].
  injection Hf as <-.
  exists d.
  change (control_description _) with (Py.take 500 d).
  split; [reflexivity |]. split; [apply take_is_prefix |].
  split; [apply take_length_min |]. split; [apply take_whole |].
  repeat split.
Qed.

(** X11. In every finding the matcher returns, the description is the
    control's description cut to its first 500 characters (unchanged when it
    is not longer), the points-of-focus count is the length of the control's
    list (0 when the control has none), and the finding is marked as
    requiring AI analysis. *)
Theorem finding_fields
    (control : Control) (evidence_texts : dict string) (f : Finding)
    (Hf : match_evidence_to_control control evidence_texts = Ok f) :
  exists description,
    c_description control = Some description /\
    is_prefix (control_description f) description = true /\
    String.length (control_description f) = Nat.min (String.length description) 500 /\
    (String.length description <= 500 -> control_description f = description) /\
    points_of_focus_count f = List.length (get_default (c_points_of_focus control) []) /\
    common_evidence_types f = get_default (c_common_evidence control) [] /\
    requires_ai_analysis f = true.
Proof. exact (finding_fields_of control evidence_texts Hf). Qed.

Lemma finding_fields_witness :
  exists f,
    match_evidence_to_control access_control [] = Ok f /\
    control_description f = "Access to systems is restricted." /\
    points_of_focus_count f = 0 /\
    requires_ai_analysis f = true.
Proof.
  eexists. split; [reflexivity |].
  destruct (@finding_fields access_control [] _ eq_refl)
    as (d & Hd & _ & _ & Hshort & Hp & _ & Hai).
  injection Hd as <-. split; [|split; [exact Hp | exact Hai]].
  apply Hshort. simpl. lia.
Defined.

(** ** The driver, from start to end *)

Lemma assess_all_well_formed (controls : list Control) (d : dict string)
    (fs : list Finding) :
  assess_all controls d = Ok fs -> Forall well_formed controls.
Proof.
  intros H. apply assess_all_ok in H.
  induction H as [|c f cs fs' Hf _ IH]; constructor; [|exact IH].
  now apply match_ok_inv in Hf.
Qed.

(** In the model, a run produces an assessment exactly when the framework
    document has its complete identity and complete controls, the evidence
    directory exists and the output file can be opened. *)
Lemma main_ok_iff (args : Args) (w : World) :
  (exists r, outcome (main args w) = Ok r) <->
  (exists doc,
      w_framework_file w = FwDoc doc /\
      ~ identity_missing doc /\
      Forall well_formed (get_default (doc_controls doc) [])) /\
  w_listing w <> None /\
  w_output_ok w = true.
Proof.
  split.
  - intros [r Hr].
    destruct (main_ok_inv _ _ Hr) as (doc & entries & t & d & Hfw & Hls & Hx & Ha & Hb).
    split; [|split].
    + exists doc. split; [exact Hfw |]. split.
      * now apply build_result_ok in Hb.
      * now apply assess_all_well_formed in Ha.
    + congruence.
    + rewrite (@main_stages args w doc entries t d Hfw Hls Hx), Ha, Hb in Hr.
      destruct (w_output_ok w); [reflexivity | discriminate Hr].
  - intros ((doc & Hfw & Hid & WF) & Hls & Hout).
    destruct (w_listing w) as [entries|] eqn:Hl; [|congruence].
    destruct (extract_all_total (w_content w) (catalog args entries)) as (t & d & Hx).
    rewrite (@main_stages args w doc entries t d Hfw Hl Hx).
    destruct (assess_all_total d WF) as [fs ->].
    destruct (@build_result_total args w doc (get_default (doc_controls doc) [])
                (catalog args entries) fs Hid) as [r ->].
    rewrite Hout. eexists. reflexivity.
Qed.



(** X13. A run that produces an assessment loads the framework, enumerates
    the evidence directory, calls extraction once per regular file in
    enumeration order, and writes once, as its last step: the assessment it
    returns, to the output path.  Nothing but extraction calls and their
    warnings lies between the enumeration and the write. *)
Theorem successful_run_trace
    (args : Args) (w : World) (r : AssessmentResult)
    (Hrun : outcome (main args w) = Ok r) :
  exists entries t,
    w_listing w = Some entries /\
    trace (main args w)
    = EvLoadFramework (arg_framework args) :: EvIterDir (arg_evidence_dir args)
        :: t ++ [EvWrite (arg_output args) r] /\
    filter is_extract t = map (fun e => EvExtract (e_name e)) (filter e_is_file entries) /\
    existsb is_write t = false /\
    Forall (fun ev => exists name, ev = EvExtract name \/ ev = EvWarning name) t.
Proof.
  destruct (main_ok_inv _ _ Hrun) as (doc & entries & t & d & Hfw & Hls & Hx & Ha & Hb).
  exists entries, t. split; [exact Hls |].
  pose proof (extract_all_trace (w_content w) (catalog args entries) []) as [Ht Hw].
  rewrite Hx in Ht, Hw. unfold trace in Ht, Hw. cbn [fst] in Ht, Hw.
  split; [|split; [|split; [exact Hw |]]].
  - rewrite (@main_stages args w doc entries t d Hfw Hls Hx), Ha, Hb in Hrun |- *.
    destruct (w_output_ok w); [reflexivity | discriminate Hrun].
  - rewrite Ht. unfold catalog. now rewrite map_map.
  - clear - Hx. revert t d Hx. generalize (@nil (string * string)).
    induction (catalog args entries) as [|ef rest IH]; intros d0 t d Hx.
    + injection Hx as <- _. constructor.
    + cbn [extract_all] in Hx. unfold bind in Hx.
      destruct (extract_total (w_content w) (ef_name ef)) as (tr & o & Hx1 & Htr).
      rewrite Hx1 in Hx.
      match type of Hx with context [extract_all _ rest ?d1] =>
        destruct (extract_all (w_content w) rest d1) as [t' r'] eqn:Hrest
      end.
      injection Hx as <- ->.
      constructor; [eauto |]. apply Forall_app. split.
      * destruct Htr as [-> | ->]; repeat constructor; eauto.
      * eapply IH. exact Hrest.
Qed.

Lemma successful_run_trace_witness :
  exists r,
    outcome (main sample_args mixed_world) = Ok r /\
    exists entries t,
      w_listing mixed_world = Some entries /\
      trace (main sample_args mixed_world)
      = EvLoadFramework "frameworks/soc2.json" :: EvIterDir "evidence"
          :: t ++ [EvWrite "out.json" r] /\
      filter is_extract t = map (fun e => EvExtract (e_name e)) (filter e_is_file entries) /\
      existsb is_write t = false /\
      Forall (fun ev => exists name, ev = EvExtract name \/ ev = EvWarning name) t.
Proof.
  eexists. split; [vm_compute; reflexivity |].
  apply (@successful_run_trace sample_args mixed_world). reflexivity.
Defined.



(** X15. The clock reaches the assessment through [assessment_id] and
    [timestamp] only.  The same run at another time produces an assessment
    with the same findings, summary, catalog and framework; its identifier is
    the client id, the framework id and the time stamp joined by hyphens. *)
Theorem clock_changes_identifiers_only
    (args : Args) (w : World) (stamp utc_iso : string) (r : AssessmentResult)
    (Hrun : outcome (main args w) = Ok r) :
  exists r',
    outcome (main args (with_clock w stamp utc_iso)) = Ok r' /\
    findings r' = findings r /\
    preliminary_summary r' = preliminary_summary r /\
    evidence_files r' = evidence_files r /\
    framework r' = framework r /\
    client_id r' = arg_client_id args /\
    timestamp r' = utc_iso /\
    assessment_id r'
    = (arg_client_id args ++ "-" ++ framework_id (framework r) ++ "-" ++ stamp)%string.
Proof.
  destruct (main_ok_inv _ _ Hrun) as (doc & entries & t & d & Hfw & Hls & Hx & Ha & Hb).
  assert (Hout : w_output_ok w = true).
  { rewrite (@main_stages args w doc entries t d Hfw Hls Hx), Ha, Hb in Hrun.
    destruct (w_output_ok w); [reflexivity | discriminate Hrun]. }
  rewrite (@main_stages args (with_clock w stamp utc_iso) doc entries t d Hfw Hls Hx), Ha.
  cbn [with_clock w_output_ok]. rewrite Hout.
  unfold build_result in Hb |- *.
  destruct (doc_framework doc) as [fw|]; [|discriminate Hb].
  cbn [subscript rbind] in Hb |- *.
  destruct (fw_id fw), (fw_name fw), (fw_version fw);
    cbn [subscript rbind] in Hb |- *; try discriminate Hb.
  injection Hb as <-. eexists. split; [reflexivity |]. repeat split.
Qed.

Lemma clock_changes_identifiers_only_witness :
  exists r r',
    outcome (main sample_args mixed_world) = Ok r /\
    outcome (main sample_args (with_clock mixed_world "20270315083000" "2027-03-15T08:30:00+00:00"))
    = Ok r' /\
    findings r' = findings r /\
    assessment_id r = "acme-soc2-20260101120000" /\
    assessment_id r' = "acme-soc2-20270315083000".
Proof.
  eexists.
  destruct (@clock_changes_identifiers_only sample_args mixed_world
              "20270315083000" "2027-03-15T08:30:00+00:00" _ eq_refl)
    as (r' & Hr' & Hf & _ & _ & _ & _ & _ & Hid).
  exists r'. split; [reflexivity |]. split; [exact Hr' |]. split; [exact Hf |].
  split; [reflexivity | exact Hid].
Defined.

(** ** Letter case and substrings *)

Lemma lower_char_idempotent (c : ascii) :
  Py.lower_char (Py.lower_char c) = Py.lower_char c.
Proof. destruct c as [[] [] [] [] [] [] [] []]; reflexivity. Qed.

Lemma lower_idempotent (s : string) : Py.lower (Py.lower s) = Py.lower s.
Proof.
  induction s as [|c t IH]; simpl; [reflexivity |].
  now rewrite lower_char_idempotent, IH.
Qed.

Lemma keywords_of_lower (labels1 labels2 : list string) :
  map Py.lower labels1 = map Py.lower labels2 ->
  keywords_of labels1 = keywords_of labels2.
Proof.
  unfold keywords_of. revert labels2.
  induction labels1 as [|l rest IH]; intros [|l2 rest2] H; simpl in *;
    try discriminate; [reflexivity |].
  injection H as Hl Hrest. now rewrite Hl, (IH _ Hrest).
Qed.

Lemma matched_files_lower (ks : list string) (ev1 ev2 : dict string) :
  map (fun item => (fst item, Py.lower (snd item))) ev1
  = map (fun item => (fst item, Py.lower (snd item))) ev2 ->
  matched_files ks ev1 = matched_files ks ev2.
Proof.
  unfold matched_files, is_matched. revert ev2.
  induction ev1 as [|i1 rest IH]; intros [|i2 rest2] H; simpl in *;
    try discriminate; [reflexivity |].
  injection H as Hn Ht Hrest. rewrite Ht.
  destruct (2 <? _); simpl; [rewrite Hn; f_equal |]; now apply IH.
Qed.

(** X16. Matching ignores letter case on both sides.  Two controls whose
    common-evidence labels agree once lower-cased, looking at evidence whose
    texts agree once lower-cased under the same file names, get the same
    evidence and the same status. *)
Theorem matching_ignores_letter_case
    (control1 control2 : Control) (ev1 ev2 : dict string)
    (WF1 : well_formed control1) (WF2 : well_formed control2)
    (Hlabels : map Py.lower (get_default (c_common_evidence control1) [])
               = map Py.lower (get_default (c_common_evidence control2) []))
    (Htexts : map (fun item => (fst item, Py.lower (snd item))) ev1
              = map (fun item => (fst item, Py.lower (snd item))) ev2) :
  exists f1 f2,
    match_evidence_to_control control1 ev1 = Ok f1 /\
    match_evidence_to_control control2 ev2 = Ok f2 /\
    evidence_found f1 = evidence_found f2 /\
    preliminary_status f1 = preliminary_status f2.
Proof.
  destruct (match_well_formed ev1 WF1) as (f1 & Hf1 & He1 & Hs1 & _).
  destruct (match_well_formed ev2 WF2) as (f2 & Hf2 & He2 & Hs2 & _).
  exists f1, f2. split; [exact Hf1 |]. split; [exact Hf2 |].
  assert (E : evidence_found f1 = evidence_found f2).
  { rewrite He1, He2. unfold control_keywords.
    rewrite (keywords_of_lower _ _ Hlabels). now apply matched_files_lower. }
  split; [exact E |]. now rewrite Hs1, Hs2, E.
Qed.

Lemma matching_ignores_letter_case_witness :
  exists f1 f2,
    match_evidence_to_control (sample_control ["Access Control POLICY"])
      [("a.txt", "ACCESS CONTROL POLICY")] = Ok f1 /\
    match_evidence_to_control (sample_control ["access control policy"])
      [("a.txt", "access control policy")] = Ok f2 /\
    evidence_found f1 = evidence_found f2 /\
    preliminary_status f1 = preliminary_status f2.
Proof.
  apply (@matching_ignores_letter_case
           (sample_control ["Access Control POLICY"])
           (sample_control ["access control policy"])
           [("a.txt", "ACCESS CONTROL POLICY")]
           [("a.txt", "access control policy")]);
    try apply sample_control_well_formed; reflexivity.
Defined.

Lemma startswith_split (kw text : string) :
  Py.startswith kw text = true -> exists rest, text = (kw ++ rest)%string.
Proof.
  revert text; induction kw as [|c k IH]; intros text H; simpl in *.
  - now exists text.
  - destruct text as [|b t]; [discriminate |].
    apply andb_true_iff in H as [Hc Hk]. apply Ascii.eqb_eq in Hc. subst b.
    destruct (IH _ Hk) as [rest ->]. now exists rest.
Qed.

Lemma contains_split (kw text : string) :
  Py.contains kw text = true ->
  exists before after, text = (before ++ kw ++ after)%string.
Proof.
  induction text as [|c t IH]; simpl; intros H.
  - rewrite orb_false_r in H. apply startswith_split in H as [rest ->].
    now exists "", rest.
  - apply orb_true_iff in H as [H | H].
    + apply startswith_split in H as [rest ->]. now exists "", rest.
    + destruct (IH H) as (b & a & ->). now exists (String c b), a.
Qed.

(** X17. A keyword is a hit exactly when it occurs somewhere in the text as
    a run of consecutive characters, also inside a longer word; it then adds
    one to the score, however many times it occurs. *)
Theorem keyword_hit_iff_substring (kw text : string) :
  (count_matches [kw] text = 1 <->
   exists before after, text = (before ++ kw ++ after)%string) /\
  (count_matches [kw] text = 0 <->
   ~ exists before after, text = (before ++ kw ++ after)%string).
Proof.
  unfold count_matches. simpl.
  destruct (Py.contains kw text) eqn:E; simpl.
  - apply contains_split in E. split; split; intros; try reflexivity; try discriminate; tauto.
  - assert (N : ~ exists before after, text = (before ++ kw ++ after)%string).
    { intros (b & a & ->). rewrite contains_app in E. discriminate E. }
    split; split; intros; try reflexivity; try discriminate; tauto.
Qed.

(** ** The order in which the evidence directory is enumerated *)

Lemma extract_all_distinct (read : string -> FileContent) (files : list EvidenceFile) :
  NoDup (map ef_name files) ->
  forall d0,
    (forall n, In n (map ef_name files) -> ~ In n (dict_keys d0)) ->
    exists t,
      extract_all read files d0 = (t, Ok (d0 ++ flat_map (contribution read) files)).
Proof.
  induction files as [|ef rest IH]; intros Hnd d0 Hfresh.
  - exists []. simpl. now rewrite app_nil_r.
  - inversion Hnd as [|n ns Hnotin Hrest]; subst.
    destruct (extract_total read (ef_name ef)) as (tr & o & Hx & _).
    cbn [extract_all flat_map]. unfold bind. rewrite Hx.
    assert (Hname : ~ In (ef_name ef) (dict_keys d0)).
    { apply Hfresh. now left. }
    assert (E : match o with
                | Some s => if Py.truthy s then dict_set (ef_name ef) s d0 else d0
                | None => d0
                end = d0 ++ contribution read ef).
    { unfold contribution. rewrite Hx. cbn [outcome snd].
      destruct o as [s|]; [|now rewrite app_nil_r].
      destruct (Py.truthy s); [now apply dict_set_fresh | now rewrite app_nil_r]. }
    rewrite E.
    destruct (IH Hrest (d0 ++ contribution read ef)) as [t Ht].
    { intros n Hn Hin. unfold dict_keys in Hin. rewrite map_app in Hin.
      apply in_app_or in Hin as [Hin | Hin].
      - apply (Hfresh n); [now right | exact Hin].
      - unfold contribution in Hin.
        destruct (outcome (extract_text_from_file read (ef_name ef))) as [[s|]|];
          try contradiction.
        destruct (Py.truthy s); [|contradiction].
        destruct Hin as [<- | []]. now apply Hnotin. }
    rewrite Ht. rewrite <- app_assoc. eauto.
Qed.

Lemma matched_files_contributions (read : string -> FileContent) (ks : list string)
    (files : list EvidenceFile) :
  matched_files ks (flat_map (contribution read) files)
  = filter (file_matches read ks) (map ef_name files).
Proof.
  induction files as [|ef rest IH]; [reflexivity |].
  cbn [flat_map map filter]. rewrite matched_files_app, IH.
  unfold contribution, file_matches.
  destruct (outcome (extract_text_from_file read (ef_name ef))) as [[s|]|];
    try reflexivity.
  unfold matched_files.
  destruct (Py.truthy s); [|reflexivity].
  cbn [filter snd andb]. now destruct (is_matched ks s).
Qed.

Lemma catalog_names (args : Args) (entries : list DirEntry) :
  map ef_name (catalog args entries) = map e_name (filter e_is_file entries).
Proof. unfold catalog. now rewrite map_map. Qed.

(** With distinct file names, the evidence found is the enumeration, filtered. *)
Lemma evidence_found_filter
    (args : Args) (w : World) (r : AssessmentResult) (entries : list DirEntry)
    (Hrun : outcome (main args w) = Ok r)
    (Hlisting : w_listing w = Some entries)
    (Hdistinct : NoDup (map e_name (filter e_is_file entries))) :
  Forall (fun f =>
            evidence_found f
            = filter (file_matches (w_content w) (keywords_of (common_evidence_types f)))
                     (map e_name (filter e_is_file entries)))
         (findings r).
Proof.
  destruct (main_ok_inv _ _ Hrun) as (doc & entries' & t & d & _ & Hls & Hx & Ha & _).
  assert (entries' = entries) by congruence. subst entries'.
  rewrite <- (catalog_names args) in Hdistinct |- *.
  destruct (@extract_all_distinct (w_content w) (catalog args entries) Hdistinct [])
    as [t' Hx']; [intros n _ [] |].
  rewrite Hx in Hx'. injection Hx' as _ ->. cbn [app] in Ha.
  apply assess_all_ok in Ha.
  induction Ha as [|c f cs fs Hf _ IH]; constructor; [|exact IH].
  destruct (finding_fields_of _ _ Hf) as (_ & _ & _ & _ & _ & _ & Hlabels & _).
  apply match_ok_inv in Hf as (_ & He & _).
  rewrite He, Hlabels. apply matched_files_contributions.
Qed.

(** X18. When the regular files of the evidence directory have distinct
    names, [evidence_found] lists the matched files in the order in which
    the directory was enumerated: it is the enumeration with the files left
    out whose text is missing, empty, or scores at most two. *)
Theorem evidence_found_in_enumeration_order
    (args : Args) (w : World) (r : AssessmentResult) (entries : list DirEntry)
    (Hrun : outcome (main args w) = Ok r)
    (Hlisting : w_listing w = Some entries)
    (Hdistinct : NoDup (map e_name (filter e_is_file entries))) :
  Forall (fun f =>
            evidence_found f
            = filter (file_matches (w_content w) (keywords_of (common_evidence_types f)))
                     (map e_name (filter e_is_file entries)))
         (findings r).
Proof. exact (evidence_found_filter args w Hrun Hlisting Hdistinct). Qed.

Lemma evidence_found_in_enumeration_order_witness :
  exists r,
    outcome (main sample_args (policy_world doc_complete ["b.txt"; "a.txt"])) = Ok r /\
    map evidence_found (findings r) = [["b.txt"; "a.txt"]] /\
    Forall (fun f =>
              evidence_found f
              = filter (file_matches policy_content (keywords_of (common_evidence_types f)))
                       ["b.txt"; "a.txt"])
           (findings r).
Proof.
  eexists. split; [vm_compute; reflexivity |]. split; [reflexivity |].
  apply (@evidence_found_in_enumeration_order sample_args
           (policy_world doc_complete ["b.txt"; "a.txt"]) _
           (map sample_entry ["b.txt"; "a.txt"])); try reflexivity.
  simpl. repeat constructor; simpl; intuition discriminate.
Defined.

Lemma permutation_filter {A} (p : A -> bool) (l l' : list A) :
  Permutation l l' -> Permutation (filter p l) (filter p l').
Proof.
  induction 1 as [|x l l' _ IH|x y l|l l' l'' _ IH1 _ IH2]; simpl.
  - constructor.
  - destruct (p x); [now constructor | exact IH].
  - destruct (p x), (p y); try reflexivity. constructor.
  - now transitivity (filter p l').
Qed.

Lemma count_status_by_statuses (s : Status) (fs fs' : list Finding) :
  map preliminary_status fs = map preliminary_status fs' ->
  count_status s fs = count_status s fs'.
Proof.
  unfold count_status. revert fs'.
  induction fs as [|f rest IH]; intros [|f' rest'] H; simpl in *;
    try discriminate; [reflexivity |].
  injection H as Hf Hrest. rewrite Hf.
  destruct (Status_eqb _ s); simpl; [f_equal |]; now apply IH.
Qed.

Lemma status_of_length (l l' : list string) :
  List.length l = List.length l' -> status_of l = status_of l'.
Proof. unfold status_of. now intros ->. Qed.

(** X19. The order in which the evidence directory is enumerated changes
    neither the statuses nor the summary.  When the regular files have
    distinct names, a run on any other enumeration of the same entries
    produces an assessment too, with the same status for each control and
    the same summary counts; each [evidence_found] holds the same files, in
    the other order. *)
Theorem enumeration_order_keeps_statuses
    (args : Args) (w : World) (r : AssessmentResult) (entries entries' : list DirEntry)
    (Hrun : outcome (main args w) = Ok r)
    (Hlisting : w_listing w = Some entries)
    (Hdistinct : NoDup (map e_name (filter e_is_file entries)))
    (Hperm : Permutation entries entries') :
  exists r',
    outcome (main args (with_listing w entries')) = Ok r' /\
    map preliminary_status (findings r') = map preliminary_status (findings r) /\
    preliminary_summary r' = preliminary_summary r /\
    Forall2 (fun f f' => control_id f = control_id f' /\
                         Permutation (evidence_found f) (evidence_found f'))
            (findings r) (findings r').
Proof.
  assert (Hok : exists r', outcome (main args (with_listing w entries')) = Ok r').
  { apply main_ok_iff.
    destruct (proj1 (main_ok_iff args w) (ex_intro _ r Hrun)) as (Hdoc & _ & Hout).
    split; [exact Hdoc |]. split; [discriminate | exact Hout]. }
  destruct Hok as [r' Hrun']. exists r'. split; [exact Hrun' |].
  assert (Hnames : Permutation (map e_name (filter e_is_file entries))
                               (map e_name (filter e_is_file entries'))).
  { apply Permutation_map. now apply permutation_filter. }
  assert (Hdistinct' : NoDup (map e_name (filter e_is_file entries'))).
  { eapply Permutation_NoDup; [exact Hnames | exact Hdistinct]. }
  pose proof (evidence_found_filter args w Hrun Hlisting Hdistinct) as Hord.
  pose proof (@evidence_found_filter args (with_listing w entries') r'
                entries' Hrun' eq_refl Hdistinct') as Hord'.
  cbn [with_listing w_content] in Hord'.
  destruct (main_ok_inv _ _ Hrun) as (doc & e1 & t & d & Hfw & _ & _ & Ha & Hb).
  destruct (main_ok_inv _ _ Hrun') as (doc' & e2 & t' & d' & Hfw' & _ & _ & Ha' & Hb').
  cbn [with_listing w_framework_file] in Hfw'.
  assert (doc' = doc) by congruence. subst doc'.
  apply build_result_ok in Hb as (_ & _ & Hsum & _).
  apply build_result_ok in Hb' as (_ & _ & Hsum' & _).
  apply assess_all_ok in Ha. apply assess_all_ok in Ha'.
  assert (Hpair : Forall2 (fun f f' =>
                             control_id f = control_id f' /\
                             Permutation (evidence_found f) (evidence_found f') /\
                             preliminary_status f' = preliminary_status f)
                          (findings r) (findings r')).
  { revert Ha Ha' Hord Hord'.
    generalize (findings r) (findings r') (get_default (doc_controls doc) []).
    intros fs fs' controls Ha. revert fs'.
    induction Ha as [|c f cs fs Hf _ IH]; intros fs' Ha' Hord Hord';
      inversion Ha' as [|c' f' cs' fs'' Hf' Hrest']; subst; constructor.
    - inversion Hord as [|? ? Hof _]; inversion Hord' as [|? ? Hof' _]; subst.
      destruct (finding_fields_of _ _ Hf) as (_ & _ & _ & _ & _ & _ & Hl & _).
      destruct (finding_fields_of _ _ Hf') as (_ & _ & _ & _ & _ & _ & Hl' & _).
      apply match_ok_inv in Hf as (_ & _ & Hs & Hid).
      apply match_ok_inv in Hf' as (_ & _ & Hs' & Hid').
      assert (P : Permutation (evidence_found f) (evidence_found f')).
      { rewrite Hof, Hof', Hl, Hl'. now apply permutation_filter. }
      split; [congruence |]. split; [exact P |].
      rewrite Hs, Hs'. apply status_of_length. symmetry. now apply Permutation_length.
    - inversion Hord; inversion Hord'; subst. now apply IH. }
  assert (Hst : map preliminary_status (findings r') = map preliminary_status (findings r)).
  { clear - Hpair. induction Hpair as [|f f' fs fs' (_ & _ & Hs) _ IH]; simpl;
      [reflexivity | now rewrite Hs, IH]. }
  split; [exact Hst |]. split.
  - rewrite Hsum, Hsum'. f_equal; now apply count_status_by_statuses.
  - eapply Forall2_impl; [|exact Hpair]. intros f f' (Hid & P & _). auto.
Qed.

Lemma enumeration_order_keeps_statuses_witness :
  exists r r',
    outcome (main sample_args (policy_world doc_complete ["a.txt"; "b.txt"])) = Ok r /\
    outcome (main sample_args
               (with_listing (policy_world doc_complete ["a.txt"; "b.txt"])
                  (map sample_entry ["b.txt"; "a.txt"]))) = Ok r' /\
    map evidence_found (findings r) = [["a.txt"; "b.txt"]] /\
    map preliminary_status (findings r') = map preliminary_status (findings r) /\
    preliminary_summary r' = preliminary_summary r.
Proof.
  eexists.
  destruct (@enumeration_order_keeps_statuses sample_args
              (policy_world doc_complete ["a.txt"; "b.txt"]) _
              (map sample_entry ["a.txt"; "b.txt"])
              (map sample_entry ["b.txt"; "a.txt"]) eq_refl eq_refl)
    as (r' & Hr' & Hst & Hsum & _).
  - simpl. repeat constructor; simpl; intuition discriminate.
  - apply perm_swap.
  - exists r'. split; [reflexivity |]. split; [exact Hr' |].
    split; [reflexivity |]. split; [exact Hst | exact Hsum].
Defined.

(** ** The type of a catalogued file *)

Lemma from_last_dot_none (s : string) :
  Py.from_last_dot s = None ->
  string_forallb (fun c => negb (Ascii.eqb c ".")) s = true.
Proof.
  induction s as [|c t IH]; simpl; [reflexivity |].
  destruct (Py.from_last_dot t); [discriminate |].
  destruct (Ascii.eqb c "."); [discriminate |]. intros _. now rewrite IH.
Qed.

Lemma from_last_dot_some (s r : string) :
  Py.from_last_dot s = Some r ->
  exists stem ext,
    s = (stem ++ r)%string /\ r = String "." ext /\
    string_forallb (fun c => negb (Ascii.eqb c ".")) ext = true.
Proof.
  revert r; induction s as [|c t IH]; simpl; intros r H; [discriminate |].
  destruct (Py.from_last_dot t) as [r'|] eqn:E.
  - injection H as <-. destruct (IH r' eq_refl) as (stem & ext & -> & -> & Hext).
    exists (String c stem), ext. auto.
  - destruct (Ascii.eqb_spec c ".") as [-> | _]; [|discriminate].
    injection H as <-. exists "", t. split; [reflexivity |]. split; [reflexivity |].
    now apply from_last_dot_none.
Qed.

Lemma lower_char_dot (c : ascii) :
  Ascii.eqb (Py.lower_char c) "." = Ascii.eqb c ".".
Proof. destruct c as [[] [] [] [] [] [] [] []]; reflexivity. Qed.

Lemma lower_no_dot (s : string) :
  string_forallb (fun c => negb (Ascii.eqb c ".")) (Py.lower s)
  = string_forallb (fun c => negb (Ascii.eqb c ".")) s.
Proof.
  induction s as [|c t IH]; simpl; [reflexivity |]. now rewrite lower_char_dot, IH.
Qed.

Lemma lstrip_dots_no_dot (s : string) :
  string_forallb (fun c => negb (Ascii.eqb c ".")) s = true -> Py.lstrip_dots s = s.
Proof.
  destruct s as [|c t]; simpl; [reflexivity |].
  destruct (Ascii.eqb c "."); [discriminate | reflexivity].
Qed.

Lemma from_last_dot_no_dot (s : string) :
  string_forallb (fun c => negb (Ascii.eqb c ".")) s = true ->
  Py.from_last_dot s = None.
Proof.
  induction s as [|c t IH]; simpl; [reflexivity |].
  intros H. apply andb_true_iff in H as [Hc Ht]. rewrite (IH Ht).
  destruct (Ascii.eqb c "."); [discriminate Hc | reflexivity].
Qed.

Lemma from_last_dot_app (stem ext : string) :
  string_forallb (fun c => negb (Ascii.eqb c ".")) ext = true ->
  Py.from_last_dot (stem ++ String "." ext) = Some (String "." ext).
Proof.
  intros Hext. induction stem as [|c t IH]; simpl.
  - now rewrite (from_last_dot_no_dot _ Hext).
  - now rewrite IH.
Qed.

Lemma type_of_suffix (ext : string) :
  string_forallb (fun c => negb (Ascii.eqb c ".")) ext = true ->
  Py.lstrip_dots (Py.lower (String "." ext)) = Py.lower ext.
Proof.
  intros Hext.
  change (Py.lower (String "." ext)) with (String "." (Py.lower ext)).
  cbn [Py.lstrip_dots]. change (Ascii.eqb "." ".") with true. cbv iota.
  apply lstrip_dots_no_dot. now rewrite lower_no_dot.
Qed.

(** X20. The [type] of a catalogued file is the lower-cased text after the
    last dot of its name, without the dot: for a name made of a non-empty
    stem, a dot and a non-empty extension without a dot, the type is the
    lower-cased extension, and the extractor dispatches on the dot followed
    by the type.  The type and the suffix are empty for a name without a dot,
    for a name whose only dot is its first character, and for a name that
    ends with a dot.  Every name is of one of these four kinds. *)
Theorem catalog_type_is_extension (evidence_dir : string) (e : DirEntry) :
  (forall stem ext,
      e_name e = (stem ++ "." ++ ext)%string ->
      stem <> "" -> ext <> "" ->
      string_forallb (fun c => negb (Ascii.eqb c ".")) ext = true ->
      ef_type (catalog_entry evidence_dir e) = Py.lower ext /\
      Py.lower (Py.suffix (e_name e)) = String "." (Py.lower ext)) /\
  (string_forallb (fun c => negb (Ascii.eqb c ".")) (e_name e) = true ->
   ef_type (catalog_entry evidence_dir e) = "" /\ Py.suffix (e_name e) = "") /\
  (forall rest,
      e_name e = String "." rest ->
      string_forallb (fun c => negb (Ascii.eqb c ".")) rest = true ->
      ef_type (catalog_entry evidence_dir e) = "" /\ Py.suffix (e_name e) = "") /\
  (forall stem,
      e_name e = (stem ++ ".")%string ->
      ef_type (catalog_entry evidence_dir e) = "" /\ Py.suffix (e_name e) = "") /\
  ((exists stem ext,
       e_name e = (stem ++ "." ++ ext)%string /\ stem <> "" /\ ext <> "" /\
       string_forallb (fun c => negb (Ascii.eqb c ".")) ext = true) \/
   string_forallb (fun c => negb (Ascii.eqb c ".")) (e_name e) = true \/
   (exists rest,
       e_name e = String "." rest /\
       string_forallb (fun c => negb (Ascii.eqb c ".")) rest = true) \/
   (exists stem, e_name e = (stem ++ ".")%string)).
Proof.
  unfold catalog_entry. cbn [ef_type e_name].
  split; [|split; [|split; [|split]]].
  - intros stem ext Hname Hstem Hext Hnodot. rewrite Hname.
    destruct stem as [|c stem]; [congruence |].
    destruct ext as [|x ext]; [congruence |].
    assert (Hs : Py.suffix (String c stem ++ "." ++ String x ext)
                 = String "." (String x ext)).
    { unfold Py.suffix. cbn [append].
      change ("." ++ String x ext)%string with (String "." (String x ext)).
      now rewrite (from_last_dot_app stem _ Hnodot). }
    rewrite Hs. split; [now apply type_of_suffix | reflexivity].
  - intros Hnodot.
    assert (Hs : Py.suffix (e_name e) = "").
    { unfold Py.suffix. destruct (e_name e) as [|c t]; [reflexivity |].
      cbn [string_forallb] in Hnodot. apply andb_true_iff in Hnodot as [_ Ht].
      now rewrite (from_last_dot_no_dot _ Ht). }
    rewrite Hs. split; reflexivity.
  - intros rest Hname Hnodot.
    assert (Hs : Py.suffix (e_name e) = "").
    { rewrite Hname. unfold Py.suffix. now rewrite (from_last_dot_no_dot _ Hnodot). }
    rewrite Hs. split; reflexivity.
  - intros stem Hname.
    assert (Hs : Py.suffix (e_name e) = "").
    { rewrite Hname. unfold Py.suffix. destruct stem as [|c stem]; [reflexivity |].
      cbn [append]. change "."%string with (String "." "").
      now rewrite (from_last_dot_app stem "" eq_refl). }
    rewrite Hs. split; reflexivity.
  - destruct (Py.from_last_dot (e_name e)) as [r|] eqn:E.
    + destruct (from_last_dot_some _ E) as (stem & ext & Hname & -> & Hnodot).
      destruct ext as [|x ext]; [right; right; right; now exists stem |].
      destruct stem as [|c stem].
      * right. right. left. exists (String x ext). split; [exact Hname | exact Hnodot].
      * left. exists (String c stem), (String x ext).
        split; [exact Hname |]. split; [discriminate |]. split; [discriminate | exact Hnodot].
    + right. left. now apply from_last_dot_none.
Qed.

Lemma catalog_type_is_extension_witness :
  ef_type (catalog_entry "evidence" (sample_entry "Audit.Report.PDF")) = "pdf" /\
  Py.lower (Py.suffix "Audit.Report.PDF") = ".pdf" /\
  ef_type (catalog_entry "evidence" (sample_entry ".gitignore")) = "" /\
  ef_type (catalog_entry "evidence" (sample_entry "notes.")) = "" /\
  ef_type (catalog_entry "evidence" (sample_entry "README")) = "".
Proof.
  destruct (@catalog_type_is_extension "evidence" (sample_entry "Audit.Report.PDF"))
    as (Hext & _).
  destruct (Hext "Audit.Report" "PDF" eq_refl) as [Hty Hsfx];
    [discriminate | discriminate | reflexivity |].
  destruct (@catalog_type_is_extension "evidence" (sample_entry ".gitignore"))
    as (_ & _ & Hlead & _).
  destruct (@catalog_type_is_extension "evidence" (sample_entry "notes."))
    as (_ & _ & _ & Htrail & _).
  destruct (@catalog_type_is_extension "evidence" (sample_entry "README"))
    as (_ & Hnone & _).
  split; [exact Hty |]. split; [exact Hsfx |].
  split; [exact (proj1 (Hlead "gitignore" eq_refl eq_refl)) |].
  split; [exact (proj1 (Htrail "notes" eq_refl)) | exact (proj1 (Hnone eq_refl))].
Defined.

(** ** A control without a required key *)

Lemma assess_all_first_failure (good rest : list Control) (bad : Control)
    (d : dict string) :
  Forall well_formed good ->
  assess_all (good ++ bad :: rest) d
  = match match_evidence_to_control bad d with
    | Err e => Err e
    | Ok f => assess_all (good ++ bad :: rest) d
    end.
Proof.
  intros Hgood. destruct (match_evidence_to_control bad d) as [f|e] eqn:Hbad;
    [reflexivity |].
  induction Hgood as [|c cs WF _ IH]; simpl.
  - now rewrite Hbad.
  - destruct (match_well_formed d WF) as (f & -> & _). simpl. now rewrite IH.
Qed.

(** X25. One control without [id], [name] or [description] makes the whole
    run fail: with the [KeyError] of the first such control, after extraction
    was called on every regular file, and without writing the output, even
    when every other control is complete. *)
Theorem malformed_control_aborts_run
    (args : Args) (w : World) (doc : FrameworkDoc) (entries : list DirEntry)
    (good rest : list Control) (bad : Control)
    (Hfw : w_framework_file w = FwDoc doc)
    (Hlisting : w_listing w = Some entries)
    (Hcontrols : get_default (doc_controls doc) [] = good ++ bad :: rest)
    (Hgood : Forall well_formed good)
    (Hbad : ~ well_formed bad) :
  exists key,
    In key ["id"; "name"; "description"] /\
    match_evidence_to_control bad [] = Err (KeyError key) /\
    outcome (main args w) = Err (KeyError key) /\
    filter is_extract (trace (main args w))
    = map (fun e => EvExtract (e_name e)) (filter e_is_file entries) /\
    existsb is_write (trace (main args w)) = false.
Proof.
  assert (Hkey : exists key,
             In key ["id"; "name"; "description"] /\
             forall d, match_evidence_to_control bad d = Err (KeyError key)).
  { unfold well_formed in Hbad. unfold match_evidence_to_control.
    destruct (c_id bad); [|exists "id"; simpl; auto].
    destruct (c_name bad); [|exists "name"; simpl; auto].
    destruct (c_description bad); [|exists "description"; simpl; auto].
    exfalso. apply Hbad. repeat split; discriminate. }
  destruct Hkey as (key & Hin & Herr). exists key.
  split; [exact Hin |]. split; [apply Herr |].
  destruct (extract_all_total (w_content w) (catalog args entries)) as (t & d & Hx).
  rewrite (@main_stages args w doc entries t d Hfw Hlisting Hx).
  rewrite Hcontrols, (assess_all_first_failure rest bad d Hgood), Herr.
  pose proof (extract_all_trace (w_content w) (catalog args entries) []) as [Ht Hw].
  rewrite Hx in Ht, Hw. unfold trace in Ht, Hw |- *. cbn [fst] in Ht, Hw.
  split; [reflexivity |]. split; [|exact Hw].
  cbn [fst filter is_extract]. rewrite Ht. unfold catalog. now rewrite map_map.
Qed.

Lemma malformed_control_aborts_run_witness :
  let bad := {| c_id := Some "CC9.9"; c_name := Some "Vendors"; c_description := None;
                c_common_evidence := None; c_points_of_focus := None |} in
  let w := policy_world {| doc_framework := Some sample_identity;
                           doc_controls := Some [access_control; bad] |}
                        ["policy.txt"] in
  outcome (main sample_args w) = Err (KeyError "description") /\
  existsb is_write (trace (main sample_args w)) = false.
Proof.
  intros bad w.
  destruct (@malformed_control_aborts_run sample_args w
              {| doc_framework := Some sample_identity;
                 doc_controls := Some [access_control; bad] |}
              (map sample_entry ["policy.txt"]) [access_control] [] bad
              eq_refl eq_refl eq_refl)
    as (key & _ & Hkey & Hout & _ & Hw).
  - repeat constructor; discriminate.
  - intros (_ & _ & Hd). now apply Hd.
  - vm_compute in Hkey. injection Hkey as <-. split; [exact Hout | exact Hw].
Defined.

(** * Properties of [check_framework_updates.py] *)

Lemma find_first {A} (p : A -> bool) (l : list A) (x : A) :
  find p l = Some x ->
  exists before after,
    l = before ++ x :: after /\ p x = true /\ Forall (fun y => p y = false) before.
Proof.
  induction l as [|a rest IH]; simpl; [discriminate |].
  destruct (p a) eqn:E.
  - intros H. injection H as <-. exists [], rest. auto.
  - intros H. destruct (IH H) as (before & after & -> & Hx & Hb).
    exists (a :: before), after. auto.
Qed.

Lemma dict_get_missing {V} (k : string) (d : dict V) :
  ~ In k (dict_keys d) -> dict_get k d = None.
Proof.
  induction d as [|[k' v] rest IH]; simpl; intros H; [reflexivity |].
  destruct (String.eqb_spec k k') as [-> | _]; [exfalso; apply H; now left |].
  apply IH. intros Hin. apply H. now right.
Qed.

(** The fields of one check, by the cases of the request. *)
Lemma check_outcome_cases (net : Updates.Net) (fid : string) (config : Updates.SourceConfig) :
  let check := Updates.check_for_updates net fid config in
  Updates.framework_id check = fid /\
  Updates.name check = Updates.cfg_name config /\
  (Updates.update_detected check = true <->
   exists text phrase,
     Updates.n_get net (Updates.cfg_check_url config) = Updates.PageText text /\
     In phrase Updates.update_phrases /\
     Py.contains phrase (Py.lower text) = true) /\
  (Updates.update_detected check = true <-> Updates.details check <> None) /\
  (forall message,
      Updates.error check = Some message <->
      Updates.n_get net (Updates.cfg_check_url config) = Updates.Failure message) /\
  (Updates.error check <> None ->
   Updates.update_detected check = false /\ Updates.details check = None).
Proof.
  unfold Updates.check_for_updates.
  destruct (Updates.n_get net (Updates.cfg_check_url config)) as [text | message].
  - cbv zeta.
    destruct (find _ Updates.update_phrases) as [phrase|] eqn:E;
      cbn [Updates.framework_id Updates.name Updates.update_detected Updates.details
           Updates.error];
      (split; [reflexivity |]); (split; [reflexivity |]);
      split; [| split; [| split] | | split; [| split]].
    + apply find_some in E as [Hin Hc]. split; [eauto | reflexivity].
    + split; [discriminate | reflexivity].
    + intros message. split; discriminate.
    + intros Hne. now contradiction Hne.
    + split; [discriminate |].
      intros (text' & phrase & Ht & Hin & Hc). injection Ht as <-.
      pose proof (find_none _ _ E phrase Hin) as Hn. cbv beta in Hn. congruence.
    + split; [discriminate | intros Hne; now contradiction Hne].
    + intros message. split; discriminate.
    + intros _. split; reflexivity.
  - cbn [Updates.framework_id Updates.name Updates.update_detected Updates.details
         Updates.error].
    split; [reflexivity |]. split; [reflexivity |].
    split; [| split; [| split]].
    + split; [discriminate |]. intros (text' & phrase & Ht & _). discriminate Ht.
    + split; [discriminate | intros Hne; now contradiction Hne].
    + intros m. split; intros Hm; now injection Hm as <-.
    + intros _. split; reflexivity.
Qed.

(** X21. One check.  An update is detected exactly when the page was fetched
    and one of the four update phrases occurs in its lower-cased text; this
    is also exactly when [details] is set.  [error] is set exactly when the
    request or the parse raised, and then no update is reported. *)
Theorem check_outcome (net : Updates.Net) (fid : string) (config : Updates.SourceConfig) :
  let check := Updates.check_for_updates net fid config in
  Updates.framework_id check = fid /\
  Updates.name check = Updates.cfg_name config /\
  (Updates.update_detected check = true <->
   exists text phrase,
     Updates.n_get net (Updates.cfg_check_url config) = Updates.PageText text /\
     In phrase Updates.update_phrases /\
     Py.contains phrase (Py.lower text) = true) /\
  (Updates.update_detected check = true <-> Updates.details check <> None) /\
  (forall message,
      Updates.error check = Some message <->
      Updates.n_get net (Updates.cfg_check_url config) = Updates.Failure message) /\
  (Updates.error check <> None ->
   Updates.update_detected check = false /\ Updates.details check = None).
Proof. apply check_outcome_cases. Qed.

(** X22. When several update phrases occur in a page, [details] names the
    one that comes first in the list "new version", "updated", "revision",
    "latest", wherever the phrases stand in the page. *)
Theorem first_phrase_wins
    (net : Updates.Net) (fid : string) (config : Updates.SourceConfig) (text : string)
    (Hget : Updates.n_get net (Updates.cfg_check_url config) = Updates.PageText text)
    (Hdetected : Updates.update_detected (Updates.check_for_updates net fid config) = true) :
  exists before phrase after,
    Updates.update_phrases = before ++ phrase :: after /\
    Updates.details (Updates.check_for_updates net fid config)
    = Some ("Found '" ++ phrase ++ "' - manual review recommended")%string /\
    Py.contains phrase (Py.lower text) = true /\
    Forall (fun earlier => Py.contains earlier (Py.lower text) = false) before.
Proof.
  unfold Updates.check_for_updates in *. rewrite Hget in *. cbv zeta in *.
  destruct (find _ Updates.update_phrases) as [phrase|] eqn:E; [|discriminate Hdetected].
  apply find_first in E as (before & after & Hl & Hc & Hb).
  exists before, phrase, after. auto.
Qed.

Lemma first_phrase_wins_witness :
  exists before after,
    Updates.update_phrases = before ++ "updated" :: after /\
    Updates.details
      (Updates.check_for_updates Updates.sample_net "nist-csf"
         {| Updates.cfg_name := "NIST Cybersecurity Framework";
            Updates.cfg_check_url := "https://www.nist.gov/cyberframework";
            Updates.cfg_keywords := ["CSF 2.0"; "cybersecurity framework"];
            Updates.cfg_current_version := "2.0" |})
    = Some "Found 'updated' - manual review recommended".
Proof.
  destruct (@first_phrase_wins Updates.sample_net "nist-csf"
              {| Updates.cfg_name := "NIST Cybersecurity Framework";
                 Updates.cfg_check_url := "https://www.nist.gov/cyberframework";
                 Updates.cfg_keywords := ["CSF 2.0"; "cybersecurity framework"];
                 Updates.cfg_current_version := "2.0" |}
              "The LATEST Revision of the framework, Updated in 2024" eq_refl eq_refl)
    as (before & phrase & after & Hl & Hd & _).
  vm_compute in Hd. injection Hd as Hp.
  exists ["new version"], ["revision"; "latest"]. split; reflexivity.
Defined.

Lemma run_checks_spec (net : Updates.Net) (selected : dict Updates.SourceConfig) :
  forall results,
    let done := map (fun item => Updates.check_for_updates net (fst item) (snd item))
                    selected in
    fst (Updates.run_checks net selected results)
    = map (fun item => Updates.EvGet (Updates.cfg_check_url (snd item))) selected /\
    Updates.checks (snd (Updates.run_checks net selected results))
    = Updates.checks results ++ done /\
    Updates.frameworks (snd (Updates.run_checks net selected results))
    = Updates.frameworks results
      ++ map Updates.framework_id (filter Updates.update_detected done) /\
    Updates.updates_found (snd (Updates.run_checks net selected results))
    = Updates.updates_found results || existsb Updates.update_detected done /\
    Updates.results_checked_at (snd (Updates.run_checks net selected results))
    = Updates.results_checked_at results.
Proof.
  induction selected as [|[fid config] rest IH]; intros results; cbv zeta.
  - cbn. rewrite !app_nil_r, orb_false_r. auto.
  - cbn [Updates.run_checks map fst snd filter existsb].
    match goal with |- context [Updates.run_checks net rest ?r2] =>
      specialize (IH r2); cbv zeta in IH;
      destruct (Updates.run_checks net rest r2) as [t final] eqn:Hrest
    end.
    cbn [fst snd] in IH |- *.
    destruct IH as (Ht & Hc & Hf & Hu & Ha).
    assert (Hid : Updates.framework_id (Updates.check_for_updates net fid config) = fid)
      by apply check_outcome_cases.
    rewrite Ht, Hc, Hf, Hu, Ha.
    destruct (Updates.update_detected (Updates.check_for_updates net fid config));
      cbn [Updates.checks Updates.frameworks Updates.updates_found
           Updates.results_checked_at map];
      rewrite <- ?app_assoc; cbn [app]; rewrite ?Hid, ?orb_true_r;
      repeat split; try reflexivity.
Qed.

(** X23. The selection of frameworks.  Without a framework argument the run
    covers the four frameworks of the table in table order; with one of the
    four ids it covers that one alone; with any other non-empty argument it
    raises [KeyError] before any request is sent and before anything is
    written. *)
Theorem framework_selection (framework output : string) (net : Updates.Net) :
  Updates.select "" = Ok Updates.FRAMEWORK_SOURCES /\
  dict_keys Updates.FRAMEWORK_SOURCES = ["soc2"; "nist-csf"; "pci-dss"; "hipaa"] /\
  (forall config,
      In (framework, config) Updates.FRAMEWORK_SOURCES ->
      Updates.select framework = Ok [(framework, config)]) /\
  (framework <> "" ->
   ~ In framework ["soc2"; "nist-csf"; "pci-dss"; "hipaa"] ->
   Updates.main framework output net = ([], Err (KeyError framework))).
Proof.
  split; [reflexivity |]. split; [reflexivity |]. split.
  - intros config Hin. simpl in Hin.
    destruct Hin as [H | [H | [H | [H | []]]]]; injection H as <- <-; reflexivity.
  - intros Hne Hunknown. unfold Updates.main, Updates.select.
    destruct framework as [|c t]; [congruence |]. cbn [Py.truthy].
    rewrite dict_get_missing; [reflexivity | exact Hunknown].
Qed.

Lemma framework_selection_witness :
  Updates.main "iso27001" "updates.json" Updates.sample_net
  = ([], Err (KeyError "iso27001")).
Proof.
  destruct (@framework_selection "iso27001" "updates.json" Updates.sample_net)
    as (_ & _ & _ & Hunknown).
  apply Hunknown; [discriminate |].
  simpl. intros [H | [H | [H | [H | []]]]]; discriminate H.
Defined.

(** X24. A run whose selection succeeds sends one request per selected
    framework, in order, and then writes the results once, also when
    requests fail.  The results hold one check per selected framework;
    [frameworks] lists the ids of the checks that detected an update, in
    order, and [updates_found] says whether there is one. *)
Theorem run_reports_every_check
    (framework output : string) (net : Updates.Net)
    (selected : dict Updates.SourceConfig)
    (Hselect : Updates.select framework = Ok selected)
    (Houtput : Updates.n_output_ok net = true) :
  exists results,
    Updates.main framework output net
    = (map (fun item => Updates.EvGet (Updates.cfg_check_url (snd item))) selected
         ++ [Updates.EvWrite output results],
       Ok results) /\
    Updates.checks results
    = map (fun item => Updates.check_for_updates net (fst item) (snd item)) selected /\
    map Updates.framework_id (Updates.checks results) = dict_keys selected /\
    Updates.frameworks results
    = map Updates.framework_id (filter Updates.update_detected (Updates.checks results)) /\
    Updates.updates_found results
    = existsb Updates.update_detected (Updates.checks results) /\
    (Updates.updates_found results = true <-> Updates.frameworks results <> []).
Proof.
  unfold Updates.main. rewrite Hselect, Houtput.
  match goal with |- context [Updates.run_checks net selected ?r0] =>
    pose proof (run_checks_spec net selected r0) as Hspec; cbv zeta in Hspec;
    destruct (Updates.run_checks net selected r0) as [t results]
  end.
  cbn [fst snd Updates.checks Updates.frameworks Updates.updates_found app orb] in Hspec.
  destruct Hspec as (Ht & Hc & Hf & Hu & _).
  exists results. rewrite Ht. split; [reflexivity |]. split; [exact Hc |].
  split; [|split; [now rewrite Hf, Hc | split; [now rewrite Hu, Hc |]]].
  - rewrite Hc, map_map. unfold dict_keys. apply map_ext.
    intros [fid config]. apply check_outcome_cases.
  - rewrite Hu, Hf.
    match goal with |- context [existsb _ ?l] => generalize l end.
    clear. intros l. induction l as [|c rest IH]; simpl.
    + split; [intros Hf0; discriminate Hf0 | intros Hne; now contradiction Hne].
    + destruct (Updates.update_detected c); simpl; [|exact IH].
      split; [intros _ Hnil; discriminate Hnil | reflexivity].
Qed.

Lemma run_reports_every_check_witness :
  exists results,
    Updates.main "" "updates.json" Updates.sample_net
    = (map (fun item => Updates.EvGet (Updates.cfg_check_url (snd item)))
           Updates.FRAMEWORK_SOURCES
         ++ [Updates.EvWrite "updates.json" results],
       Ok results) /\
    map Updates.framework_id (Updates.checks results)
    = ["soc2"; "nist-csf"; "pci-dss"; "hipaa"] /\
    map Updates.error (Updates.checks results)
    = [None; None; Some "503 Server Error"; None] /\
    Updates.frameworks results = ["nist-csf"] /\
    Updates.updates_found results = true.
Proof.
  destruct (@run_reports_every_check "" "updates.json" Updates.sample_net
              Updates.FRAMEWORK_SOURCES eq_refl eq_refl)
    as (results & Hmain & Hc & Hids & Hf & Hu & _).
  exists results. split; [exact Hmain |]. split; [exact Hids |].
  split; [now rewrite Hc |]. split; [now rewrite Hf, Hc | now rewrite Hu, Hc].
Defined.
